(** * Train traffic control: the optimization engine

    A shallow embedding of [src/config.py], [src/models.py],
    [src/optimization.py] and the two engine routes of [src/api.py].

    Python values that may be [None] are [option]s, a call that may raise is
    an [outcome], and every method runs in the monad [Py], which threads the
    state of the engine's [self.solver] and the store of list objects. *)

From Stdlib Require Import ZArith SpecFloat.
From stdpp Require Import gmap strings list fin_maps sorting.

Open Scope Z_scope.

(** ** src/config.py *)

Module settings.
Definition API_V1_STR : string := "/api/v1".
Definition PROJECT_NAME : string := "Train Traffic Control System".
Definition DATABASE_URL : string := "sqlite:///./train_traffic.db".
Definition MAX_TRAINS : Z := 100.
Definition MAX_SECTIONS : Z := 50.
Definition TIME_WINDOW : Z := 24.
Definition SAFETY_BUFFER : Z := 300.
Definition MIN_STOPPING_TIME : Z := 60.
Definition MAX_DELAY_THRESHOLD : Z := 1800.
Definition PREDICTION_HORIZON : Z := 3600.
Definition MODEL_UPDATE_FREQUENCY : Z := 3600.
End settings.

(** ** src/models.py *)

(** A Python [float] is an IEEE 754 binary64 value. *)
Definition float : Type := spec_float.
Definition float_of_Z (z : Z) : float := binary_normalize 53 1024 z 0 false.
Definition float_le (x y : float) : bool := SFleb x y.

(** A [datetime], as its POSIX timestamp in seconds. *)
Definition datetime : Type := Z.

Inductive TrainType := EXPRESS | LOCAL | FREIGHT | MAINTENANCE | SPECIAL.

Definition TrainType_value (t : TrainType) : string :=
  match t with
  | EXPRESS => "express"
  | LOCAL => "local"
  | FREIGHT => "freight"
  | MAINTENANCE => "maintenance"
  | SPECIAL => "special"
  end.

Inductive TrainPriority := HIGHEST | HIGH | MEDIUM | LOW | LOWEST.


Module Train.
Record t := {
  train_id : string;
  train_type : TrainType;
  priority : TrainPriority;
  current_position : string;
  destination : string;
  scheduled_arrival : datetime;
  actual_arrival : option datetime;
  delay : Z;           (* in seconds *)
  speed : float;       (* in km/h *)
  length : float       (* in meters *)
}.
End Train.

(** class [Section] ([Section] is a reserved word here). *)
Module TrackSection.
Record t := {
  section_id : string;
  start_point : string;
  end_point : string;
  length : float;                  (* in kilometers *)
  max_speed : float;               (* in km/h *)
  capacity : Z;                    (* number of trains *)
  signal_positions : list float;   (* in km *)
  gradient : float                 (* in percentage *)
}.
End TrackSection.

Module TrainMovement.
Record t := {
  train : Train.t;
  section : TrackSection.t;
  entry_time : datetime;
  exit_time : datetime;
  planned_speed : float;
  actual_speed : option float;
  status : string
}.
End TrainMovement.

(** ** The Python runtime the engine needs *)

Inductive exn :=
| AttributeError (msg : string)
| TypeError (msg : string)
| ValueError (msg : string)
| HTTPException (status_code : Z) (detail : string)
| LibraryError (cls msg : string).  (* raised from inside ortools *)


(** [str(e)] *)
Definition exn_str (e : exn) : string :=
  match e with
  | AttributeError msg | TypeError msg | ValueError msg => msg
  | HTTPException _ detail => detail
  | LibraryError _ msg => msg
  end.

Inductive outcome (A : Type) :=
| Returned (a : A)
| Raised (e : exn).
Arguments Returned {A} a.
Arguments Raised {A} e.

(** A value of falsy [None] or a [bool], as [if] sees it. *)
Definition truthy (v : option bool) : bool :=
  match v with
  | None => false
  | Some b => b
  end.

(** ** numpy arrays of rank two *)

Record ndarray := {
  shape : Z * Z;
  rows : list (list float)
}.

Definition array_get (a : ndarray) (i j : nat) : option float :=
  r ← rows a !! i; r !! j.

(** The largest value of numpy's index type on a 64-bit platform. *)
Definition max_intp : Z := 2 ^ 63 - 1.

(** [np.zeros((n, m))] of float64.  A negative dimension raises
    [ValueError]; so does a dimension that does not fit the index type, and
    a size in bytes that does not (a dimension of zero counts as one
    there).  The allocation is the platform's: [can_allocate bytes] says
    whether it grants that many bytes, and a refusal is a [MemoryError]. *)
Definition np_zeros (can_allocate : Z → bool) (n m : Z) : outcome ndarray :=
  if (n <? 0) || (m <? 0)
  then Raised (ValueError "negative dimensions are not allowed")
  else if (max_intp <? n) || (max_intp <? m)
  then Raised (ValueError "Maximum allowed dimension exceeded")
  else if max_intp <? 8 * Z.max n 1 * Z.max m 1
  then Raised (ValueError "array is too big; `arr.size * arr.dtype.itemsize` is larger than the maximum possible size.")
  else if can_allocate (8 * n * m)
  then Returned {| shape := (n, m);
                   rows := replicate (Z.to_nat n)
                             (replicate (Z.to_nat m) (S754_zero false)) |}
  else Raised (LibraryError "MemoryError" "Unable to allocate the array").

(** ** The ortools solver, as the engine uses it

    [pywrapcp.Solver] is not part of the repository: its constructor and the
    two methods the engine calls are taken as a parameter.  A variable is
    known by the arguments it was made from. *)

Record IntVar := {
  var_min : Z;
  var_max : Z;
  var_name : string
}.

#[global] Instance IntVar_eq_dec : EqDecision IntVar.
Proof. solve_decision. Defined.

(** What [sum] builds from [0] and solver variables. *)
Inductive IntExpr :=
| EConst (z : Z)
| EVar (v : IntVar)
| EAdd (a b : IntExpr).


Record SolverModel := {
  solver_state : Type;
  OptimizeVar : Type;
  Solver : string → solver_state;
  Solver_IntVar : Z → Z → string → solver_state → outcome IntVar * solver_state;
  Solver_Minimize : IntExpr → solver_state → outcome OptimizeVar * solver_state
}.

(** ** The engine's state and the monad of its methods *)

(** A reference to a Python list of movements. *)
Definition loc : Type := positive.

Section Engine.
Context (M : SolverModel).

(** What the platform grants to an allocation of so many bytes. *)
Variable can_allocate : Z → bool.

Record world := {
  solver : solver_state M;                  (* self.solver *)
  heap : gmap loc (list TrainMovement.t)    (* the list objects *)
}.

Definition Py (A : Type) : Type := world → outcome A * world.

Definition ret {A : Type} (a : A) : Py A := λ w, (Returned a, w).

Definition raise {A : Type} (e : exn) : Py A := λ w, (Raised e, w).

Definition bind {A B : Type} (m : Py A) (k : A → Py B) : Py B :=
  λ w, match m w with
       | (Returned a, w') => k a w'
       | (Raised e, w') => (Raised e, w')
       end.

Notation "x <- m ;; k" := (bind m (λ x, k))
  (at level 100, m at next level, right associativity).
Notation "m ;; k" := (bind m (λ _, k))
  (at level 100, right associativity).

(** A [for] loop whose body updates the local [acc]. *)
Fixpoint for_each {A B : Type} (xs : list A) (body : A → B → Py B) (acc : B)
  : Py B :=
  match xs with
  | [] => ret acc
  | x :: xs' => acc' <- body x acc ;; for_each xs' body acc'
  end.

(** [enumerate(xs)] *)
Definition enumerate {A : Type} (xs : list A) : list (nat * A) :=
  imap (λ i x, (i, x)) xs.

(** Iterating over [movements]: [None] is not iterable.  A reference
    always has its object in Python; the last case is never taken. *)
Definition iter_movements (movements : option loc)
  : Py (list TrainMovement.t) :=
  match movements with
  | None => raise (TypeError "'NoneType' object is not iterable")
  | Some l =>
      λ w, match heap w !! l with
           | Some ms => (Returned ms, w)
           | None => (Raised (LibraryError "SystemError" "no such object"), w)
           end
  end.

(** [self.solver.IntVar(lo, hi, name)] *)
Definition self_solver_IntVar (lo hi : Z) (name : string) : Py IntVar :=
  λ w, let (r, s) := Solver_IntVar M lo hi name (solver w) in
       (r, {| solver := s; heap := heap w |}).

(** [self.solver.Minimize(e)] *)
Definition self_solver_Minimize (e : IntExpr) : Py (OptimizeVar M) :=
  λ w, let (r, s) := Solver_Minimize M e (solver w) in
       (r, {| solver := s; heap := heap w |}).

(** ** class OptimizationEngine *)

(** [__init__], on a store [h]. *)
Definition OptimizationEngine (h : gmap loc (list TrainMovement.t)) : world :=
  {| solver := Solver M "TrainTrafficOptimizer"; heap := h |}.

Definition create_time_space_grid (sections : list TrackSection.t)
    (time_window : Z) : Py ndarray :=
  let num_sections := Z.of_nat (length sections) in
  λ w, (np_zeros can_allocate time_window num_sections, w).

(** The body is [pass]: the call returns [None]. *)
Definition _check_conflict (movement1 movement2 : TrainMovement.t)
  : Py (option bool) :=
  ret None.

Section Detector.
(** [self._check_conflict], looked up on [self] at each call. *)
Variable check : TrainMovement.t → TrainMovement.t → Py (option bool).

(** The list is read once: nothing in the loops writes to it.  The local
    list [conflicts] is the accumulator of the two loops; [movements[i+1:]]
    is [drop (S i) ms]. *)
Definition detect_conflicts_with (movements : option loc)
  : Py (list (TrainMovement.t * TrainMovement.t)) :=
  ms <- iter_movements movements ;;
  for_each (enumerate ms) (λ '(i, mov1) conflicts,
    for_each (drop (S i) ms) (λ mov2 conflicts,
      c <- check mov1 mov2 ;;
      if truthy c then ret (conflicts ++ [(mov1, mov2)])
      else ret conflicts) conflicts) [].
End Detector.

Definition detect_conflicts := detect_conflicts_with _check_conflict.

(** An object the engine passes on without looking into it. *)
Inductive PyObject := opaque (repr : string).

(** The dict [variables]: keys in insertion order, a key set again keeps
    its place. *)
Definition VarKey : Type := string * string.
Definition VarDict : Type := list (VarKey * IntVar).

Fixpoint dict_set (k : VarKey) (v : IntVar) (d : VarDict) : VarDict :=
  match d with
  | [] => [(k, v)]
  | (k', v') :: d' =>
      if decide (k' = k) then (k, v) :: d' else (k', v') :: dict_set k v d'
  end.


(** [variables[k] for k in variables] *)
Definition dict_values (d : VarDict) : list IntVar := map snd d.

(** [sum(vs)]: starts from [0] and adds from the left. *)
Definition py_sum (vs : list IntVar) : IntExpr :=
  fold_left (λ acc v, EAdd acc (EVar v)) vs (EConst 0).

(** The bodies of the seven helpers are [pass]. *)
Definition _create_time_matrix (trains : list Train.t)
    (sections : list TrackSection.t) : Py (option ndarray) :=
  ret None.

Definition _create_constraints (trains : list Train.t)
    (sections : list TrackSection.t) : Py (option PyObject) :=
  ret None.

Definition _add_safety_constraints (variables : VarDict)
    (constraints : option PyObject) : Py unit :=
  ret tt.

Definition _add_capacity_constraints (variables : VarDict)
    (sections : list TrackSection.t) : Py unit :=
  ret tt.

Definition _add_sequence_constraints (variables : VarDict)
    (trains : list Train.t) : Py unit :=
  ret tt.

Definition _solve_optimization (variables : VarDict)
    (objective : OptimizeVar M) : Py (option PyObject) :=
  ret None.

Definition _create_movement_schedule (solution : option PyObject)
    (trains : list Train.t) (sections : list TrackSection.t)
  : Py (option loc) :=
  ret None.

(** [time_matrix.shape[0]] *)
Definition shape_0 (time_matrix : option ndarray) : Py Z :=
  match time_matrix with
  | None => raise (AttributeError "'NoneType' object has no attribute 'shape'")
  | Some a => ret (fst (shape a))
  end.

(** Lines 63 to 68: the dict of one variable per train and section.  The
    arguments of [IntVar] are evaluated before the call. *)
Definition define_variables (time_matrix : option ndarray)
    (trains : list Train.t) (sections : list TrackSection.t) : Py VarDict :=
  for_each trains (λ train variables,
    for_each sections (λ section variables,
      hi <- shape_0 time_matrix ;;
      v <- self_solver_IntVar 0 hi
             ("time_" +:+ Train.train_id train +:+ "_"
                +:+ TrackSection.section_id section) ;;
      ret (dict_set (Train.train_id train, TrackSection.section_id section)
             v variables)) variables) [].

(** Lines 76 to 78: what is handed to [Minimize]. *)
Definition objective_argument (variables : VarDict) : IntExpr :=
  py_sum (dict_values variables).

Definition optimize_schedule (trains : list Train.t)
    (sections : list TrackSection.t) (current_movements : option loc)
  : Py (option loc) :=
  time_matrix <- _create_time_matrix trains sections ;;
  constraints <- _create_constraints trains sections ;;
  variables <- define_variables time_matrix trains sections ;;
  _add_safety_constraints variables constraints ;;
  _add_capacity_constraints variables sections ;;
  _add_sequence_constraints variables trains ;;
  objective <- self_solver_Minimize (objective_argument variables) ;;
  solution <- _solve_optimization variables objective ;;
  _create_movement_schedule solution trains sections.

(** ** src/api.py: the two routes of the engine

    [try: ... except Exception as e: raise HTTPException(500, str(e))] *)
Definition try_except_500 {A : Type} (m : Py A) : Py A :=
  λ w, match m w with
       | (Returned a, w') => (Returned a, w')
       | (Raised e, w') => (Raised (HTTPException 500 (exn_str e)), w')
       end.


Definition api_detect_conflicts (movements : option loc)
  : Py (list (TrainMovement.t * TrainMovement.t)) :=
  try_except_500 (detect_conflicts movements).

End Engine.

Arguments solver {M} w.
Arguments heap {M} w.
Arguments ret {M A} a.
Arguments raise {M A} e.
Arguments bind {M A B} m k.
Arguments for_each {M A B} xs body acc.
Arguments world M : clear implicits.
Arguments Py M A : clear implicits.

(** ** The criteria the specification gives for a conflict

    These follow the specification's wording; the code has no counterpart
    of them and they are only compared with what it reports. *)

Definition same_section (m1 m2 : TrainMovement.t) : bool :=
  bool_decide (TrackSection.section_id (TrainMovement.section m1)
               = TrackSection.section_id (TrainMovement.section m2)).

(** The time between the end of the earlier and the start of the later
    movement; negative when they overlap. *)
Definition temporal_gap (m1 m2 : TrainMovement.t) : Z :=
  Z.max (TrainMovement.entry_time m2 - TrainMovement.exit_time m1)
        (TrainMovement.entry_time m1 - TrainMovement.exit_time m2).

(** A gap equal to the buffer is no conflict; two occupants need a capacity
    of two. *)
Definition spec_pair_conflict (buffer : Z) (m1 m2 : TrainMovement.t) : bool :=
  same_section m1 m2 && (temporal_gap m1 m2 <? buffer)
  && (TrackSection.capacity (TrainMovement.section m1) <? 2).

Definition active_at (t : datetime) (m : TrainMovement.t) : bool :=
  (TrainMovement.entry_time m <=? t) && (t <=? TrainMovement.exit_time m).

(** The number of movements of [ms] on the section of [m] active at [t]. *)
Definition occupancy (m : TrainMovement.t) (t : datetime)
    (ms : list TrainMovement.t) : Z :=
  Z.of_nat (length (filter (λ m', same_section m m' && active_at t m' = true) ms)).

Definition spec_capacity_exceeded (ms : list TrainMovement.t) : Prop :=
  ∃ m t, m ∈ ms ∧ TrackSection.capacity (TrainMovement.section m) < occupancy m t ms.

(** The conditions the specification puts on a movement. *)
Definition known_statuses : list string :=
  ["Scheduled"; "InProgress"; "Completed"; "Conflicted"].

Definition times_ordered (m : TrainMovement.t) : bool :=
  TrainMovement.entry_time m <? TrainMovement.exit_time m.

Definition speed_within_limit (m : TrainMovement.t) : bool :=
  float_le (TrainMovement.planned_speed m)
           (TrackSection.max_speed (TrainMovement.section m)).

Definition status_known (m : TrainMovement.t) : bool :=
  bool_decide (TrainMovement.status m ∈ known_statuses).

Definition movement_invariant (m : TrainMovement.t) : bool :=
  times_ordered m && speed_within_limit m && status_known m.

(** The pairs at positions [i < j] of [ms] whose verdict is truthy, in the
    order of the two loops. *)
Fixpoint reported_pairs (verdict : TrainMovement.t → TrainMovement.t → option bool)
    (ms : list TrainMovement.t) : list (TrainMovement.t * TrainMovement.t) :=
  match ms with
  | [] => []
  | m :: rest =>
      map (pair m) (filter (λ m', truthy (verdict m m') = true) rest)
        ++ reported_pairs verdict rest
  end.

(** The same pairs by position: [i] ascending, [j] ascending from [i + 1]
    within each [i], every pair of positions once. *)
Definition pairs_in_loop_order
    (verdict : TrainMovement.t → TrainMovement.t → option bool)
    (ms : list TrainMovement.t) : list (TrainMovement.t * TrainMovement.t) :=
  i ← seq 0 (length ms);
  match ms !! i with
  | None => []
  | Some mov1 =>
      j ← seq (S i) (length ms - S i);
      match ms !! j with
      | None => []
      | Some mov2 => if truthy (verdict mov1 mov2) then [(mov1, mov2)] else []
      end
  end.



(** ** Two solvers to run the engine with *)

(** Every call is accepted; the state counts the calls. *)
Definition lenient_solver : SolverModel := {|
  solver_state := nat;
  OptimizeVar := IntExpr;
  Solver := λ _, 0%nat;
  Solver_IntVar := λ lo hi name s,
    (Returned {| var_min := lo; var_max := hi; var_name := name |}, S s);
  Solver_Minimize := λ e s, (Returned e, S s)
|}.

(** [Minimize] wants a step as its second argument and rejects the call
    with one argument. *)
Definition strict_solver : SolverModel := {|
  solver_state := nat;
  OptimizeVar := IntExpr;
  Solver := λ _, 0%nat;
  Solver_IntVar := λ lo hi name s,
    (Returned {| var_min := lo; var_max := hi; var_name := name |}, S s);
  Solver_Minimize := λ e s,
    (Raised (TypeError "Minimize() missing 1 required positional argument: 'step'"), s)
|}.



(** ** Sample data, after tests/test_system.py *)

Definition now : datetime := 1700000000.

Definition float_half : float := binary_normalize 53 1024 1 (-1) false.

Definition sample_train : Train.t := {|
  Train.train_id := "TR001";
  Train.train_type := EXPRESS;
  Train.priority := HIGH;
  Train.current_position := "A";
  Train.destination := "B";
  Train.scheduled_arrival := now + 7200;
  Train.actual_arrival := None;
  Train.delay := 0;
  Train.speed := float_of_Z 120;
  Train.length := float_of_Z 200
|}.

Definition sample_section : TrackSection.t := {|
  TrackSection.section_id := "SEC001";
  TrackSection.start_point := "A";
  TrackSection.end_point := "B";
  TrackSection.length := float_of_Z 50;
  TrackSection.max_speed := float_of_Z 160;
  TrackSection.capacity := 3;
  TrackSection.signal_positions := [float_of_Z 10; float_of_Z 25; float_of_Z 40];
  TrackSection.gradient := float_half
|}.

Definition test_movement : TrainMovement.t := {|
  TrainMovement.train := sample_train;
  TrainMovement.section := sample_section;
  TrainMovement.entry_time := now;
  TrainMovement.exit_time := now + 3600;
  TrainMovement.planned_speed := float_of_Z 100;
  TrainMovement.actual_speed := None;
  TrainMovement.status := "scheduled"
|}.

Definition with_capacity (c : Z) (s : TrackSection.t) : TrackSection.t := {|
  TrackSection.section_id := TrackSection.section_id s;
  TrackSection.start_point := TrackSection.start_point s;
  TrackSection.end_point := TrackSection.end_point s;
  TrackSection.length := TrackSection.length s;
  TrackSection.max_speed := TrackSection.max_speed s;
  TrackSection.capacity := c;
  TrackSection.signal_positions := TrackSection.signal_positions s;
  TrackSection.gradient := TrackSection.gradient s
|}.

Definition train_with (id : string) (p : TrainPriority) (v : float) : Train.t := {|
  Train.train_id := id;
  Train.train_type := EXPRESS;
  Train.priority := p;
  Train.current_position := "A";
  Train.destination := "B";
  Train.scheduled_arrival := now + 7200;
  Train.actual_arrival := None;
  Train.delay := 0;
  Train.speed := v;
  Train.length := float_of_Z 200
|}.

Definition movement_of (tr : Train.t) (s : TrackSection.t)
    (entry exit : datetime) (v : float) (st : string) : TrainMovement.t := {|
  TrainMovement.train := tr;
  TrainMovement.section := s;
  TrainMovement.entry_time := entry;
  TrainMovement.exit_time := exit;
  TrainMovement.planned_speed := v;
  TrainMovement.actual_speed := None;
  TrainMovement.status := st
|}.

(** An engine over a store with one list object, at reference 1. *)
Definition engine_with (M : SolverModel) (ms : list TrainMovement.t) : world M :=
  OptimizationEngine M {[ 1%positive := ms ]}.

(** What [time_matrix.shape] raises on [None]. *)
Definition no_shape : exn :=
  AttributeError "'NoneType' object has no attribute 'shape'".








(** ** src/ml_models.py and src/data: what they need of the runtime *)

Definition KeyError (key : string) : exn :=
  LibraryError "KeyError" ("'" +:+ key +:+ "'").

Definition IndexError : exn :=
  LibraryError "IndexError" "list index out of range".

Definition ZeroDivisionError (msg : string) : exn :=
  LibraryError "ZeroDivisionError" msg.

#[global] Instance outcome_ret : MRet outcome := @Returned.

#[global] Instance outcome_bind : MBind outcome :=
  λ A B f m, match m with
             | Returned a => f a
             | Raised e => Raised e
             end.

(** [d[key]] *)
Definition getitem {V : Type} (d : gmap string V) (key : string) : outcome V :=
  match d !! key with
  | Some v => Returned v
  | None => Raised (KeyError key)
  end.

(** [xs[i]] for an index that is not negative. *)
Definition list_item {A : Type} (xs : list A) (i : nat) : outcome A :=
  match xs !! i with
  | Some x => Returned x
  | None => Raised IndexError
  end.


(** [try: ... except Exception as e: raise HTTPException(500, str(e))] for
    the routes that do not touch the engine. *)
Definition except_500 {A : Type} (r : outcome A) : outcome A :=
  match r with
  | Returned a => Returned a
  | Raised e => Raised (HTTPException 500 (exn_str e))
  end.

Definition float_is_zero (x : float) : bool :=
  match x with
  | S754_zero _ => true
  | _ => false
  end.

(** [x / y] on floats. *)
Definition float_div (x y : float) : outcome float :=
  if float_is_zero y then Raised (ZeroDivisionError "float division by zero")
  else Returned (SFdiv 53 1024 x y).

(** [a / b] on integers below 2^53, which convert to floats exactly. *)
Definition int_truediv (a b : Z) : outcome float :=
  if b =? 0 then Raised (ZeroDivisionError "division by zero")
  else Returned (SFdiv 53 1024 (float_of_Z a) (float_of_Z b)).

(** ** src/ml_models.py

    numpy, scikit-learn and keras are not part of the repository: [np.array]
    and the calls on the fitted objects are parameters.  [V] is the type of
    the values the records hold. *)

Section ml_models.
Context {V Arr : Type}.
Variable np_array : ∀ A : Type, list A → outcome Arr.

(** *** class DelayPredictor *)

Variable StandardScaler : Type.
Variable fit_transform : Arr → StandardScaler → outcome Arr * StandardScaler.

(** Lines 27 to 35: the row of features and the label of one record. *)
Definition feature_row (data : gmap string V) : outcome (list V) :=
  a ← getitem data "day_of_week";
  b ← getitem data "time_of_day";
  c ← getitem data "train_type";
  d ← getitem data "section_load";
  e ← getitem data "weather_condition";
  f ← getitem data "maintenance_status";
  mret [a; b; c; d; e; f].

Fixpoint collect_features (historical_data : list (gmap string V))
    (features : list (list V)) (labels : list V)
  : outcome (list (list V) * list V) :=
  match historical_data with
  | [] => mret (features, labels)
  | data :: rest =>
      row ← feature_row data;
      y ← getitem data "delay";
      collect_features rest (features ++ [row]) (labels ++ [y])
  end.

(** [self.scaler] is the state. *)
Definition prepare_features (historical_data : list (gmap string V))
    (scaler : StandardScaler) : outcome (Arr * Arr) * StandardScaler :=
  match collect_features historical_data [] [] with
  | Raised e => (Raised e, scaler)
  | Returned (features, labels) =>
      match np_array _ features with
      | Raised e => (Raised e, scaler)
      | Returned X =>
          match np_array _ labels with
          | Raised e => (Raised e, scaler)
          | Returned y =>
              match fit_transform X scaler with
              | (Raised e, scaler') => (Raised e, scaler')
              | (Returned X_scaled, scaler') => (Returned (X_scaled, y), scaler')
              end
          end
      end
  end.

(** *** class TrafficPatternAnalyzer *)

Definition sequence_length : nat := 24.

Definition sequence_row (d : gmap string V) : outcome (list V) :=
  a ← getitem d "train_count";
  b ← getitem d "avg_speed";
  c ← getitem d "congestion_level";
  mret [a; b; c].

(** The list comprehension over [seq]. *)
Fixpoint sequence_rows (seq : list (gmap string V)) : outcome (list (list V)) :=
  match seq with
  | [] => mret []
  | d :: rest => row ← sequence_row d; rows ← sequence_rows rest; mret (row :: rows)
  end.

(** The loop over [range(len(traffic_data) - sequence_length)]. *)
Fixpoint collect_sequences (traffic_data : list (gmap string V))
    (indices : list nat) (sequences : list (list (list V)))
    (targets : list (list V))
  : outcome (list (list (list V)) * list (list V)) :=
  match indices with
  | [] => mret (sequences, targets)
  | i :: rest =>
      let seq := take sequence_length (drop i traffic_data) in
      target ← list_item traffic_data (i + sequence_length);
      rows ← sequence_rows seq;
      t ← getitem target "congestion_level";
      collect_sequences traffic_data rest (sequences ++ [rows]) (targets ++ [[t]])
  end.

(** The two lists handed to [np.array]; [range] of a negative number is
    empty, as is [seq 0] of a truncated difference. *)
Definition sequence_lists (traffic_data : list (gmap string V))
  : outcome (list (list (list V)) * list (list V)) :=
  collect_sequences traffic_data
    (seq 0 (length traffic_data - sequence_length)) [] [].

Definition prepare_sequence_data (traffic_data : list (gmap string V))
  : outcome (Arr * Arr) :=
  '(sequences, targets) ← sequence_lists traffic_data;
  X ← np_array _ sequences;
  y ← np_array _ targets;
  mret (X, y).

(** What a caller passes for [sequence]: an array, as annotated, or the pair
    that [prepare_sequence_data] returns. *)
Inductive sequence_arg :=
| an_array (a : Arr)
| a_tuple (t : Arr * Arr).

(** [self.model.predict(a[np.newaxis, :])[0][0]] on an array [a]. *)
Variable model_predict_first : Arr → outcome float.

(** [self.anomaly_detector.predict(a.reshape(1, -1))] on an array [a]. *)
Variable anomaly_detector_predict : Arr → outcome Arr.

(** [a.tolist()] *)
Variable tolist : Arr → list Z.

(** A tuple cannot be indexed by [(np.newaxis, slice(None))]. *)
Definition predict_pattern (sequence : sequence_arg) : outcome float :=
  match sequence with
  | an_array a => model_predict_first a
  | a_tuple _ =>
      Raised (TypeError "tuple indices must be integers or slices, not tuple")
  end.

Definition detect_anomalies (sequence : sequence_arg) : outcome Arr :=
  match sequence with
  | an_array a => anomaly_detector_predict a
  | a_tuple _ =>
      Raised (AttributeError "'tuple' object has no attribute 'reshape'")
  end.

(** *** src/api.py: the route /analyze/pattern *)

Record pattern_report := {
  predicted_pattern : float;
  anomalies_detected : list Z
}.

Definition analyze_pattern (traffic_data : list (gmap string V))
  : outcome pattern_report :=
  except_500 (
    sequence_data ← prepare_sequence_data traffic_data;
    pattern_prediction ← predict_pattern (a_tuple sequence_data);
    anomalies ← detect_anomalies (a_tuple sequence_data);
    mret {| predicted_pattern := pattern_prediction;
            anomalies_detected := tolist anomalies |}).

End ml_models.

(** ** src/data/schemas.py: the records the collector works on *)

(** A [datetime] of these records: naive, or aware of its offset from UTC.
    [instant] counts the microseconds since 0001-01-01 00:00, of the wall
    clock for a naive value and of UTC for an aware one.  An ordering
    comparison or a difference of a naive and an aware value raises
    [TypeError]. *)
Record py_datetime := {
  instant : Z;
  aware : bool
}.

(** [datetime.max - datetime.min], in microseconds. *)
Definition max_instant : Z := 3652059 * 86400 * 1000000 - 1.

Definition cannot_compare : exn :=
  TypeError "can't compare offset-naive and offset-aware datetimes".

Definition cannot_subtract : exn :=
  TypeError "can't subtract offset-naive and offset-aware datetimes".

Definition date_out_of_range : exn :=
  LibraryError "OverflowError" "date value out of range".

(** [a <= b] and [a < b] *)
Definition datetime_le (a b : py_datetime) : outcome bool :=
  if bool_decide (aware a = aware b) then Returned (instant a <=? instant b)
  else Raised cannot_compare.

Definition datetime_lt (a b : py_datetime) : outcome bool :=
  if bool_decide (aware a = aware b) then Returned (instant a <? instant b)
  else Raised cannot_compare.

(** [min(a, b)] takes [b] when [b < a]; [max(a, b)] takes [b] when
    [b > a]. *)
Definition datetime_min (a b : py_datetime) : outcome py_datetime :=
  lt ← datetime_lt b a; mret (if lt : bool then b else a).

Definition datetime_max (a b : py_datetime) : outcome py_datetime :=
  gt ← datetime_lt a b; mret (if gt : bool then b else a).

(** [a - b], a [timedelta] in microseconds. *)
Definition datetime_sub (a b : py_datetime) : outcome Z :=
  if bool_decide (aware a = aware b) then Returned (instant a - instant b)
  else Raised cannot_subtract.

(** [a - delta] for a [timedelta] of [delta] microseconds. *)
Definition datetime_minus (a : py_datetime) (delta : Z) : outcome py_datetime :=
  if (0 <=? instant a - delta) && (instant a - delta <=? max_instant)
  then Returned {| instant := instant a - delta; aware := aware a |}
  else Raised date_out_of_range.

(** [datetime.now()] is naive; [clock] is what the wall clock shows. *)
Definition datetime_now (clock : Z) : py_datetime :=
  {| instant := clock; aware := false |}.

(** [delta.total_seconds()] *)
Definition total_seconds (delta : Z) : float :=
  SFdiv 53 1024 (float_of_Z delta) (float_of_Z 1000000).

(** A number that is an [int] or a [float]. *)
Inductive py_number :=
| PyInt (z : Z)
| PyFloat (x : float).

(** [sum(xs)] of floats: the [int] 0 of the empty sum, or the floats added
    to it from the left. *)
Definition sum_floats (xs : list float) : py_number :=
  match xs with
  | [] => PyInt 0
  | _ => PyFloat (fold_left (SFadd 53 1024) xs (float_of_Z 0))
  end.

Inductive MaintenanceStatus := NONE | SCHEDULED | URGENT | IN_PROGRESS.

Module MaintenanceBlock.
Record t := {
  block_id : string;
  section_id : string;
  start_time : py_datetime;
  end_time : py_datetime;
  type : string;
  status : MaintenanceStatus;
  speed_restriction : option float;
  description : string
}.
End MaintenanceBlock.

Module RealTimeData.
Record t := {
  timestamp : py_datetime;
  train_id : string;
  position : gmap string float;
  speed : float;
  direction : float;
  section_id : string;
  delay : Z;
  status : string;
  next_signal : string;
  next_station : string
}.
End RealTimeData.

Module OperationalMetrics.
Record t := {
  timestamp : py_datetime;
  section_id : string;
  trains_in_section : Z;
  average_speed : float;
  total_delay : Z;
  capacity_utilization : float;
  conflict_count : Z;
  resolution_time : float
}.
End OperationalMetrics.

(** A list comprehension with a condition that may raise. *)
Fixpoint filter_raising {A : Type} (test : A → outcome bool) (l : list A)
  : outcome (list A) :=
  match l with
  | [] => mret []
  | x :: rest =>
      keep ← test x;
      kept ← filter_raising test rest;
      mret (if keep : bool then x :: kept else kept)
  end.

(** A list comprehension whose element may raise. *)
Fixpoint map_raising {A B : Type} (f : A → outcome B) (l : list A)
  : outcome (list B) :=
  match l with
  | [] => mret []
  | x :: rest => y ← f x; ys ← map_raising f rest; mret (y :: ys)
  end.

(** ** src/data/collector.py

    [datetime.now()] is [datetime_now clock]. *)

Module DataValidator.

Definition validate_coordinates (lat lon : float) : bool :=
  float_le (float_of_Z (-90)) lat && float_le lat (float_of_Z 90)
  && (float_le (float_of_Z (-180)) lon && float_le lon (float_of_Z 180)).

Definition validate_speed (speed max_speed : float) : bool :=
  float_le (float_of_Z 0) speed && float_le speed max_speed.


(** [and] does not evaluate its right side when the left is false. *)
Definition validate_maintenance_block (block : MaintenanceBlock.t)
  : outcome bool :=
  ordered ← datetime_lt (MaintenanceBlock.start_time block)
                        (MaintenanceBlock.end_time block);
  mret (ordered
        && match MaintenanceBlock.speed_restriction block with
           | None => true
           | Some r => SFltb (float_of_Z 0) r
           end).

End DataValidator.

Module DataPreprocessor.

(** The division of the comprehension, element by element. *)
Fixpoint normalize_speeds (speeds : list float) (max_speed : float)
  : outcome (list float) :=
  match speeds with
  | [] => mret []
  | speed :: rest =>
      q ← float_div speed max_speed;
      qs ← normalize_speeds rest max_speed;
      mret (q :: qs)
  end.

(** The dict that [process_maintenance_impacts] returns. *)
Record maintenance_impacts := {
  active_blocks : Z;
  speed_restrictions : list float;
  affected_duration : py_number
}.

(** [block.section_id == section_id and
     block.start_time <= current_time <= block.end_time]: the times are
    compared only for a block of the section, and the end only when the
    start has passed. *)
Definition is_active (section_id : string) (current_time : py_datetime)
    (block : MaintenanceBlock.t) : outcome bool :=
  if bool_decide (MaintenanceBlock.section_id block = section_id)
  then started ← datetime_le (MaintenanceBlock.start_time block) current_time;
       if started : bool
       then datetime_le current_time (MaintenanceBlock.end_time block)
       else mret false
  else mret false.

(** [(min(block.end_time, current_time)
      - max(block.start_time, current_time)).total_seconds()] *)
Definition affected_seconds (current_time : py_datetime)
    (block : MaintenanceBlock.t) : outcome float :=
  lo ← datetime_min (MaintenanceBlock.end_time block) current_time;
  hi ← datetime_max (MaintenanceBlock.start_time block) current_time;
  delta ← datetime_sub lo hi;
  mret (total_seconds delta).

Definition process_maintenance_impacts (clock : Z)
    (maintenance_blocks : list MaintenanceBlock.t) (section_id : string)
  : outcome maintenance_impacts :=
  let current_time := datetime_now clock in
  active ← filter_raising (is_active section_id current_time) maintenance_blocks;
  seconds ← map_raising (affected_seconds current_time) active;
  mret {| active_blocks := Z.of_nat (length active);
          speed_restrictions := omap MaintenanceBlock.speed_restriction active;
          affected_duration := sum_floats seconds |}.

End DataPreprocessor.

Module DataAggregator.

(** [data.section_id == section_id and data.timestamp >= window_start] *)
Definition in_window (section_id : string) (window_start : py_datetime)
    (data : RealTimeData.t) : outcome bool :=
  if bool_decide (RealTimeData.section_id data = section_id)
  then datetime_le window_start (RealTimeData.timestamp data)
  else mret false.

(** [np.mean] is the parameter [np_mean]; [time_window] is a [timedelta]
    in microseconds. *)
Definition aggregate_section_metrics (np_mean : list float → float)
    (clock : Z) (real_time_data : list RealTimeData.t)
    (section_id : string) (time_window : Z)
  : outcome (option OperationalMetrics.t) :=
  let current_time := datetime_now clock in
  window_start ← datetime_minus current_time time_window;
  section_data ← filter_raising (in_window section_id window_start) real_time_data;
  match section_data with
  | [] => mret None
  | _ =>
      let trains : gset string :=
        list_to_set (map RealTimeData.train_id section_data) in
      utilization ← int_truediv (Z.of_nat (length section_data))
                                (Z.of_nat (length real_time_data));
      mret (Some {|
        OperationalMetrics.timestamp := current_time;
        OperationalMetrics.section_id := section_id;
        OperationalMetrics.trains_in_section := Z.of_nat (size trains);
        OperationalMetrics.average_speed :=
          np_mean (map RealTimeData.speed section_data);
        OperationalMetrics.total_delay :=
          fold_left Z.add (map RealTimeData.delay section_data) 0;
        OperationalMetrics.capacity_utilization := utilization;
        OperationalMetrics.conflict_count := 0;
        OperationalMetrics.resolution_time := S754_zero false
      |})
  end.

End DataAggregator.

(** ** What the further properties are stated with *)

Definition sequence_keys : list string :=
  ["train_count"; "avg_speed"; "congestion_level"].

Definition feature_keys : list string :=
  ["day_of_week"; "time_of_day"; "train_type"; "section_load";
   "weather_condition"; "maintenance_status"; "delay"].

Definition has_keys {V : Type} (keys : list string) (d : gmap string V) : Prop :=
  Forall (λ k, is_Some (d !! k)) keys.

(** A row of a window and the record it is read from. *)
Definition sequence_row_of {V : Type} (d : gmap string V) (row : list V) : Prop :=
  ∃ a b c, row = [a; b; c] ∧ d !! "train_count" = Some a
           ∧ d !! "avg_speed" = Some b ∧ d !! "congestion_level" = Some c.

(** A row of features and the record it is read from. *)
Definition feature_row_of {V : Type} (d : gmap string V) (row : list V) : Prop :=
  ∃ a b c x y z, row = [a; b; c; x; y; z]
    ∧ d !! "day_of_week" = Some a ∧ d !! "time_of_day" = Some b
    ∧ d !! "train_type" = Some c ∧ d !! "section_load" = Some x
    ∧ d !! "weather_condition" = Some y ∧ d !! "maintenance_status" = Some z.

(** Records to run the two preparations on, and a stand-in for [np.array]
    that keeps the length of its argument. *)
Definition sample_traffic_record : gmap string Z :=
  {[ "train_count" := 12; "avg_speed" := 80; "congestion_level" := 3 ]}.

Definition sample_history_record : gmap string Z :=
  {[ "day_of_week" := 1; "time_of_day" := 8; "train_type" := 0;
     "section_load" := 4; "weather_condition" := 0;
     "maintenance_status" := 0; "delay" := 120 ]}.

Definition length_only : ∀ A : Type, list A → outcome nat :=
  λ A l, Returned (length l).

Definition float_is_nan (x : float) : bool :=
  match x with
  | S754_nan => true
  | _ => false
  end.

Definition float_is_finite (x : float) : bool :=
  match x with
  | S754_zero _ | S754_finite _ _ _ => true
  | _ => false
  end.

(** Below zero: a negative number or minus infinity. *)
Definition float_is_negative (x : float) : bool :=
  match x with
  | S754_finite true _ _ | S754_infinity true => true
  | _ => false
  end.

(** A naive and an aware time of the same reading of the clock. *)
Definition naive (t : Z) : py_datetime := {| instant := t; aware := false |}.
Definition utc (t : Z) : py_datetime := {| instant := t; aware := true |}.

(** The microseconds at [now], counted from 0001-01-01. *)
Definition clock_now : Z := 63835596800 * 1000000.


Definition sample_block (section_id : string) (start_time end_time : py_datetime)
    (restriction : option float) : MaintenanceBlock.t := {|
  MaintenanceBlock.block_id := "MB001";
  MaintenanceBlock.section_id := section_id;
  MaintenanceBlock.start_time := start_time;
  MaintenanceBlock.end_time := end_time;
  MaintenanceBlock.type := "track renewal";
  MaintenanceBlock.status := IN_PROGRESS;
  MaintenanceBlock.speed_restriction := restriction;
  MaintenanceBlock.description := ""
|}.

Definition sample_report (train_id section_id : string)
    (timestamp : py_datetime) (delay : Z) : RealTimeData.t := {|
  RealTimeData.timestamp := timestamp;
  RealTimeData.train_id := train_id;
  RealTimeData.position := ∅;
  RealTimeData.speed := float_of_Z 60;
  RealTimeData.direction := float_of_Z 0;
  RealTimeData.section_id := section_id;
  RealTimeData.delay := delay;
  RealTimeData.status := "running";
  RealTimeData.next_signal := "";
  RealTimeData.next_station := ""
|}.

(** The reports that [aggregate_section_metrics] keeps: of the section, and
    not older than the start of the window. *)
Definition in_section_window (section_id : string) (window_start : Z)
    (data : RealTimeData.t) : bool :=
  bool_decide (RealTimeData.section_id data = section_id)
  && (window_start <=? instant (RealTimeData.timestamp data)).

(** * Properties *)

(** ** The monad *)

Lemma bind_ret_l {M : SolverModel} {A B : Type} (a : A) (k : A → Py M B) w :
  bind (ret a) k w = k a w.
Proof. reflexivity. Qed.

Lemma bind_raise {M : SolverModel} {A B : Type} (e : exn) (k : A → Py M B) w :
  bind (raise e) k w = (Raised e, w).
Proof. reflexivity. Qed.

Lemma bind_returned {M : SolverModel} {A B : Type} (m : Py M A) (k : A → Py M B)
    w a w' :
  m w = (Returned a, w') → bind m k w = k a w'.
Proof. intros E. unfold bind. by rewrite E. Qed.

(** ** The two loops of detect_conflicts *)

Section DetectorFacts.
Context (M : SolverModel).
Variable check : TrainMovement.t → TrainMovement.t → Py M (option bool).
Variable verdict : world M → TrainMovement.t → TrainMovement.t → option bool.
Hypothesis check_reads : ∀ m1 m2 w, check m1 m2 w = (Returned (verdict w m1 m2), w).

Lemma inner_loop mov1 rest acc w :
  for_each rest
    (λ mov2 conflicts,
       bind (check mov1 mov2) (λ c,
         if truthy c then ret (conflicts ++ [(mov1, mov2)]) else ret conflicts))
    acc w
  = (Returned (acc ++ map (pair mov1)
                        (filter (λ m', truthy (verdict w mov1 m') = true) rest)), w).
Proof.
  revert acc. induction rest as [|m rest IH]; intros acc; simpl.
  - by rewrite app_nil_r.
  - rewrite (bind_returned _ _ w (if truthy (verdict w mov1 m)
                                  then acc ++ [(mov1, m)] else acc) w).
    + rewrite IH. rewrite filter_cons.
      destruct (truthy (verdict w mov1 m)) eqn:E.
      * rewrite decide_True by done. simpl. by rewrite <- app_assoc.
      * rewrite decide_False by (by intros ?). done.
    + unfold bind. rewrite check_reads.
      by destruct (truthy (verdict w mov1 m)).
Qed.

Lemma outer_loop pre suf acc w :
  for_each (imap (λ i x, ((length pre + i)%nat, x)) suf)
    (λ '(i, mov1) conflicts,
       for_each (drop (S i) (pre ++ suf))
         (λ mov2 conflicts,
            bind (check mov1 mov2) (λ c,
              if truthy c then ret (conflicts ++ [(mov1, mov2)]) else ret conflicts))
         conflicts)
    acc w
  = (Returned (acc ++ reported_pairs (verdict w) suf), w).
Proof.
  revert pre acc. induction suf as [|m rest IH]; intros pre acc.
  - simpl. by rewrite app_nil_r.
  - rewrite imap_cons. cbn [for_each].
    assert (Hd : drop (S (length pre + 0)) (pre ++ m :: rest) = rest).
    { rewrite Nat.add_0_r.
      change (S (length pre)) with (1 + length pre)%nat.
      rewrite Nat.add_comm, <- drop_drop, drop_app_length. done. }
    erewrite bind_returned; last by (rewrite Hd; apply inner_loop).
    specialize (IH (pre ++ [m])).
    rewrite <- (app_assoc pre [m] rest) in IH. simpl in IH.
    erewrite (imap_ext (_ ∘ S)); first rewrite IH.
    + simpl. by rewrite <- app_assoc.
    + intros i x _. simpl. rewrite length_app. simpl. f_equal. lia.
Qed.

Lemma detect_conflicts_with_reported w l ms :
  heap w !! l = Some ms →
  detect_conflicts_with M check (Some l) w
  = (Returned (reported_pairs (verdict w) ms), w).
Proof.
  intros Hl. unfold detect_conflicts_with.
  erewrite bind_returned; last by (simpl; rewrite Hl).
  apply (outer_loop [] ms [] w).
Qed.

Lemma detect_conflicts_with_world movements w :
  (detect_conflicts_with M check movements w).2 = w.
Proof.
  destruct movements as [l|]; last done.
  destruct (heap w !! l) as [ms|] eqn:Hl.
  - by rewrite (detect_conflicts_with_reported w l ms Hl).
  - unfold detect_conflicts_with, bind. simpl. by rewrite Hl.
Qed.

End DetectorFacts.

Lemma elem_of_reported_pairs verdict ms a b :
  (a, b) ∈ reported_pairs verdict ms ↔
  ∃ i j, (i < j)%nat ∧ ms !! i = Some a ∧ ms !! j = Some b
         ∧ truthy (verdict a b) = true.
Proof.
  induction ms as [|m rest IH]; simpl.
  - split; [by intros ?%elem_of_nil | by intros (i & j & _ & ? & _)].
  - rewrite elem_of_app, IH, list_elem_of_fmap. split.
    + intros [(m' & [= -> ->] & [Hv [j Hj]%list_elem_of_lookup]%list_elem_of_filter)
             | (i & j & Hij & Hi & Hj & Hv)].
      * exists 0%nat, (S j). repeat split; [lia | done..].
      * exists (S i), (S j). repeat split; [lia | done..].
    + intros (i & j & Hij & Hi & Hj & Hv).
      destruct j as [|j]; first lia. destruct i as [|i]; simpl in *.
      * left. exists b. injection Hi as ->. split; first done.
        apply list_elem_of_filter. split; first done.
        apply list_elem_of_lookup. eauto.
      * right. exists i, j. repeat split; [lia | done..].
Qed.

Lemma reported_pairs_none verdict ms :
  (∀ a b, a ∈ ms → b ∈ ms → truthy (verdict a b) = false) →
  reported_pairs verdict ms = [].
Proof.
  intros Hf. destruct (reported_pairs verdict ms) as [|[a b] cs] eqn:E; first done.
  assert (Hin : (a, b) ∈ reported_pairs verdict ms) by (rewrite E; left).
  apply elem_of_reported_pairs in Hin as (i & j & _ & Hi & Hj & Hv).
  rewrite Hf in Hv; [done | by eapply list_elem_of_lookup_2..].
Qed.

Lemma reported_pairs_None ms : reported_pairs (λ _ _, None) ms = [].
Proof. apply reported_pairs_none. done. Qed.

Lemma detect_conflicts_empty M (w : world M) l ms :
  heap w !! l = Some ms → detect_conflicts M (Some l) w = (Returned [], w).
Proof.
  intros Hl. unfold detect_conflicts.
  rewrite (detect_conflicts_with_reported M (_check_conflict M) (λ _ _ _, None)
             (λ _ _ _, eq_refl) w l ms Hl).
  by rewrite reported_pairs_None.
Qed.

(** ** The grid *)

Lemma np_zeros_within can_allocate n m :
  0 ≤ n → 0 ≤ m → 8 * Z.max n 1 * Z.max m 1 ≤ max_intp →
  can_allocate (8 * n * m) = true →
  np_zeros can_allocate n m
  = Returned {| shape := (n, m);
                rows := replicate (Z.to_nat n)
                          (replicate (Z.to_nat m) (S754_zero false)) |}.
Proof.
  intros Hn Hm Hsize Halloc. unfold np_zeros.
  destruct (Z.ltb_spec n 0); first lia.
  destruct (Z.ltb_spec m 0); first lia.
  destruct (Z.ltb_spec max_intp n); first nia.
  destruct (Z.ltb_spec max_intp m); first nia.
  destruct (Z.ltb_spec max_intp (8 * Z.max n 1 * Z.max m 1)); first lia.
  simpl. by rewrite Halloc.
Qed.

Lemma np_zeros_too_large can_allocate n m :
  0 ≤ n → 0 ≤ m → max_intp < 8 * Z.max n 1 * Z.max m 1 →
  ∃ msg, np_zeros can_allocate n m = Raised (ValueError msg).
Proof.
  intros Hn Hm Hsize. unfold np_zeros.
  destruct (Z.ltb_spec n 0); first lia.
  destruct (Z.ltb_spec m 0); first lia.
  simpl. destruct (_ || _); first by eexists.
  destruct (Z.ltb_spec max_intp (8 * Z.max n 1 * Z.max m 1)); last lia.
  by eexists.
Qed.

Lemma np_zeros_refused can_allocate n m :
  0 ≤ n → 0 ≤ m → 8 * Z.max n 1 * Z.max m 1 ≤ max_intp →
  can_allocate (8 * n * m) = false →
  ∃ msg, np_zeros can_allocate n m = Raised (LibraryError "MemoryError" msg).
Proof.
  intros Hn Hm Hsize Halloc. unfold np_zeros.
  destruct (Z.ltb_spec n 0); first lia.
  destruct (Z.ltb_spec m 0); first lia.
  destruct (Z.ltb_spec max_intp n); first nia.
  destruct (Z.ltb_spec max_intp m); first nia.
  destruct (Z.ltb_spec max_intp (8 * Z.max n 1 * Z.max m 1)); first lia.
  simpl. rewrite Halloc. by eexists.
Qed.

(** ** Claims about the conflict detector *)

(** Claim C9: on every list of movements, also one with movements that
    overlap on one section, [detect_conflicts] returns the empty list and
    leaves the state as it was, because [_check_conflict] answers [None],
    which is falsy, for every pair. *)
Theorem detect_conflicts_returns_empty M (w : world M) l ms :
  heap w !! l = Some ms →
  detect_conflicts M (Some l) w = (Returned [], w)
  ∧ ∀ m1 m2 w0, ∃ c, _check_conflict M m1 m2 w0 = (Returned c, w0)
                     ∧ c = None ∧ truthy c = false.
Proof.
  intros Hl. split.
  - exact (detect_conflicts_empty M w l ms Hl).
  - intros m1 m2 w0. by exists None.
Qed.

Lemma detect_conflicts_returns_empty_witness :
  let ms := [movement_of sample_train (with_capacity 1 sample_section)
               now (now + 3600) (float_of_Z 100) "scheduled";
             movement_of (train_with "TR002" LOW (float_of_Z 80))
               (with_capacity 1 sample_section)
               (now + 1800) (now + 5400) (float_of_Z 80) "scheduled"] in
  detect_conflicts lenient_solver (Some 1%positive) (engine_with lenient_solver ms)
  = (Returned [], engine_with lenient_solver ms).
Proof.
  intros ms.
  apply (detect_conflicts_returns_empty lenient_solver
           (engine_with lenient_solver ms) 1%positive ms).
  reflexivity.
Defined.

(** Claim C8: [detect_conflicts] is pure.  Whatever its argument, a call
    leaves the state (the solver of the engine and every list object, the
    input among them) as it was; and two calls on lists of the same
    movements, in whatever states, return the same conflict list. *)
Theorem detect_conflicts_pure M :
  (∀ movements (w : world M), (detect_conflicts M movements w).2 = w)
  ∧ (∀ (w w' : world M) l l' ms,
       heap w !! l = Some ms → heap w' !! l' = Some ms →
       ∃ cs, (detect_conflicts M (Some l) w).1 = Returned cs
             ∧ (detect_conflicts M (Some l') w').1 = Returned cs).
Proof.
  split.
  - intros movements w.
    apply (detect_conflicts_with_world M (_check_conflict M) (λ _ _ _, None)).
    done.
  - intros w w' l l' ms Hl Hl'. exists [].
    by rewrite (detect_conflicts_empty M w l ms Hl),
               (detect_conflicts_empty M w' l' ms Hl').
Qed.

Lemma detect_conflicts_pure_witness :
  let ms := [test_movement; test_movement] in
  let w := engine_with lenient_solver ms in
  let w' : world lenient_solver :=
    Build_world lenient_solver 7%nat {[ 5%positive := ms; 6%positive := [] ]} in
  (detect_conflicts lenient_solver (Some 1%positive) w).2 = w
  ∧ ∃ cs, (detect_conflicts lenient_solver (Some 1%positive) w).1 = Returned cs
          ∧ (detect_conflicts lenient_solver (Some 5%positive) w').1 = Returned cs.
Proof.
  intros ms w w'.
  destruct (detect_conflicts_pure lenient_solver) as [Hstate Hsame].
  split.
  - apply Hstate.
  - apply (Hsame w w' 1%positive 5%positive ms); reflexivity.
Defined.

(** Claim C1, at an input where the code departs from it: two movements on
    one section of capacity 1 whose intervals overlap by half an hour are a
    conflict by the criterion of the claim (gap below the buffer of
    [SAFETY_BUFFER] seconds, capacity below two), and [detect_conflicts]
    reports nothing. *)
Theorem overlapping_pair_not_reported :
  let single_track := with_capacity 1 sample_section in
  let mov1 := movement_of sample_train single_track
                now (now + 3600) (float_of_Z 100) "scheduled" in
  let mov2 := movement_of (train_with "TR002" LOW (float_of_Z 80)) single_track
                (now + 1800) (now + 5400) (float_of_Z 80) "scheduled" in
  let w := engine_with lenient_solver [mov1; mov2] in
  spec_pair_conflict settings.SAFETY_BUFFER mov1 mov2 = true
  ∧ temporal_gap mov1 mov2 = -1800
  ∧ detect_conflicts lenient_solver (Some 1%positive) w = (Returned [], w).
Proof. done. Qed.

(** Claim C2 as stated fails: three movements that are all active at
    [now + 1800] on one section of capacity 2 exceed the capacity, and
    [detect_conflicts] raises no conflict. *)
Lemma three_on_capacity_two_not_reported :
  let double_track := with_capacity 2 sample_section in
  let mov1 := movement_of sample_train double_track
                now (now + 3600) (float_of_Z 100) "scheduled" in
  let mov2 := movement_of (train_with "TR002" LOW (float_of_Z 80)) double_track
                (now + 600) (now + 4200) (float_of_Z 80) "scheduled" in
  let mov3 := movement_of (train_with "TR003" MEDIUM (float_of_Z 90)) double_track
                (now + 1200) (now + 4800) (float_of_Z 90) "scheduled" in
  let w := engine_with lenient_solver [mov1; mov2; mov3] in
  occupancy mov1 (now + 1800) [mov1; mov2; mov3] = 3
  ∧ spec_capacity_exceeded [mov1; mov2; mov3]
  ∧ detect_conflicts lenient_solver (Some 1%positive) w = (Returned [], w).
Proof.
  intros double_track mov1 mov2 mov3 w. split; [done | split; [|done]].
  exists mov1, (now + 1800). split; [left | done].
Qed.

Lemma inner_positions
    (verdict : TrainMovement.t → TrainMovement.t → option bool)
    (mov1 : TrainMovement.t) (before rest : list TrainMovement.t) :
  (j ← seq (length before) (length rest);
   match (before ++ rest) !! j with
   | None => []
   | Some mov2 => if truthy (verdict mov1 mov2) then [(mov1, mov2)] else []
   end : list (TrainMovement.t * TrainMovement.t))
  = map (pair mov1) (filter (λ m', truthy (verdict mov1 m') = true) rest).
Proof.
  revert before. induction rest as [|m rest IH]; intros before; first done.
  cbn [length seq]. rewrite bind_cons, list_lookup_middle by done.
  assert (Hlen : length (before ++ [m]) = S (length before))
    by (rewrite length_app; simpl; lia).
  specialize (IH (before ++ [m])).
  rewrite Hlen, <- app_assoc in IH. simpl in IH.
  rewrite IH, filter_cons.
  destruct (truthy (verdict mov1 m)) eqn:E.
  - by rewrite decide_True.
  - by rewrite decide_False by (by intros ?).
Qed.

Lemma outer_positions
    (verdict : TrainMovement.t → TrainMovement.t → option bool)
    (before rest : list TrainMovement.t) :
  (i ← seq (length before) (length rest);
   match (before ++ rest) !! i with
   | None => []
   | Some mov1 =>
       j ← seq (S i) (length (before ++ rest) - S i);
       match (before ++ rest) !! j with
       | None => []
       | Some mov2 => if truthy (verdict mov1 mov2) then [(mov1, mov2)] else []
       end
   end : list (TrainMovement.t * TrainMovement.t))
  = reported_pairs verdict rest.
Proof.
  revert before. induction rest as [|m rest IH]; intros before; first done.
  cbn [length seq reported_pairs]. rewrite bind_cons, list_lookup_middle by done.
  assert (Hlen : length (before ++ [m]) = S (length before))
    by (rewrite length_app; simpl; lia).
  specialize (IH (before ++ [m])).
  rewrite Hlen, <- app_assoc in IH. simpl in IH.
  rewrite IH. f_equal.
  pose proof (inner_positions verdict m (before ++ [m]) rest) as Hin.
  rewrite Hlen, <- app_assoc in Hin. simpl in Hin.
  rewrite <- Hin. f_equal. rewrite length_app. simpl. f_equal. lia.
Qed.

Lemma reported_pairs_loop_order verdict ms :
  reported_pairs verdict ms = pairs_in_loop_order verdict ms.
Proof. symmetry. apply (outer_positions verdict [] ms). Qed.

(** Claim C2, amended: [detect_conflicts] compares the movements pairwise
    and counts no occupancy.  With any [_check_conflict] that only reads the
    state, it returns, with the state as it was, exactly the list of the
    pairs at positions [i < j] for which [_check_conflict] answers truthy,
    each pair of positions once, [i] ascending and [j] ascending within
    [i]; when no pair is answered truthy it reports nothing, however many
    movements are active at once. *)
Theorem detect_conflicts_pairwise_only M
    (check : TrainMovement.t → TrainMovement.t → Py M (option bool))
    (verdict : world M → TrainMovement.t → TrainMovement.t → option bool)
    (w : world M) l ms :
  (∀ m1 m2 w0, check m1 m2 w0 = (Returned (verdict w0 m1 m2), w0)) →
  heap w !! l = Some ms →
  detect_conflicts_with M check (Some l) w
  = (Returned (pairs_in_loop_order (verdict w) ms), w)
  ∧ (∀ a b, (a, b) ∈ pairs_in_loop_order (verdict w) ms ↔
       ∃ i j, (i < j)%nat ∧ ms !! i = Some a ∧ ms !! j = Some b
              ∧ truthy (verdict w a b) = true)
  ∧ ((∀ a b, a ∈ ms → b ∈ ms → truthy (verdict w a b) = false) →
     pairs_in_loop_order (verdict w) ms = []).
Proof.
  intros Hcheck Hl. rewrite <- reported_pairs_loop_order. split; [|split].
  - by apply detect_conflicts_with_reported.
  - intros a b. apply elem_of_reported_pairs.
  - apply reported_pairs_none.
Qed.

Lemma detect_conflicts_pairwise_only_witness :
  let track := with_capacity 1 sample_section in
  let mov1 := movement_of sample_train track
                now (now + 3600) (float_of_Z 100) "scheduled" in
  let mov2 := movement_of (train_with "TR002" LOW (float_of_Z 80)) track
                (now + 600) (now + 4200) (float_of_Z 80) "scheduled" in
  let mov3 := movement_of (train_with "TR003" MEDIUM (float_of_Z 90)) track
                (now + 1200) (now + 4800) (float_of_Z 90) "scheduled" in
  let w := engine_with lenient_solver [mov1; mov2; mov3] in
  let by_gap : TrainMovement.t → TrainMovement.t → Py lenient_solver (option bool) :=
    λ m1 m2, ret (Some (spec_pair_conflict settings.SAFETY_BUFFER m1 m2)) in
  detect_conflicts_with lenient_solver by_gap (Some 1%positive) w
  = (Returned [(mov1, mov2); (mov1, mov3); (mov2, mov3)], w).
Proof.
  intros track mov1 mov2 mov3 w by_gap.
  destruct (detect_conflicts_pairwise_only lenient_solver by_gap
              (λ _ m1 m2, Some (spec_pair_conflict settings.SAFETY_BUFFER m1 m2))
              w 1%positive [mov1; mov2; mov3])
    as (Hrun & _ & _).
  - reflexivity.
  - reflexivity.
  - exact Hrun.
Defined.

(** Claim C10 as stated fails: a time window of [2^63] is not negative, and
    [create_time_space_grid] raises [ValueError] on it, as it does on
    [2^60], whose array of one column has [2^63] bytes; this with a
    platform that would grant every allocation. *)
Lemma create_time_space_grid_too_large :
  let w := engine_with lenient_solver [test_movement] in
  0 ≤ 2 ^ 63
  ∧ create_time_space_grid lenient_solver (λ _, true) [sample_section] (2 ^ 63) w
    = (Raised (ValueError "Maximum allowed dimension exceeded"), w)
  ∧ create_time_space_grid lenient_solver (λ _, true) [sample_section] (2 ^ 60) w
    = (Raised (ValueError "array is too big; `arr.size * arr.dtype.itemsize` is larger than the maximum possible size."), w).
Proof. intros w. split; [done | split; reflexivity]. Qed.

(** Claim C10, amended: for a time window that is not negative and an array
    that numpy can build (its size in bytes, with a dimension of zero
    counted as one, within the index type, and the allocation granted),
    [create_time_space_grid] returns a matrix of [time_window] rows and one
    column per section, all of whose entries are zero, in every state: no
    train or movement enters it.  For a size beyond the index type it
    raises [ValueError], and when the allocation is refused [MemoryError],
    each with the state as it was. *)
Theorem create_time_space_grid_zeros M can_allocate (w : world M) sections
    time_window :
  0 ≤ time_window →
  (8 * Z.max time_window 1 * Z.max (Z.of_nat (length sections)) 1 ≤ max_intp →
   can_allocate (8 * time_window * Z.of_nat (length sections)) = true →
   ∃ grid, create_time_space_grid M can_allocate sections time_window w
           = (Returned grid, w)
           ∧ shape grid = (time_window, Z.of_nat (length sections))
           ∧ length (rows grid) = Z.to_nat time_window
           ∧ Forall (λ r, length r = length sections) (rows grid)
           ∧ ∀ i j, (i < Z.to_nat time_window)%nat → (j < length sections)%nat →
                    array_get grid i j = Some (S754_zero false))
  ∧ (max_intp < 8 * Z.max time_window 1 * Z.max (Z.of_nat (length sections)) 1 →
     ∃ msg, create_time_space_grid M can_allocate sections time_window w
            = (Raised (ValueError msg), w))
  ∧ (8 * Z.max time_window 1 * Z.max (Z.of_nat (length sections)) 1 ≤ max_intp →
     can_allocate (8 * time_window * Z.of_nat (length sections)) = false →
     ∃ msg, create_time_space_grid M can_allocate sections time_window w
            = (Raised (LibraryError "MemoryError" msg), w)).
Proof.
  intros Htw. unfold create_time_space_grid. split; [|split].
  - intros Hsize Halloc.
    rewrite np_zeros_within by (done || lia). eexists. split; first done.
    simpl. rewrite Nat2Z.id.
    split; [done | split; [by rewrite length_replicate | split]].
    + apply Forall_replicate. by rewrite length_replicate.
    + intros i j Hi Hj. unfold array_get. simpl.
      rewrite lookup_replicate_2 by done. simpl.
      by rewrite lookup_replicate_2.
  - intros Hsize.
    destruct (np_zeros_too_large can_allocate time_window
                (Z.of_nat (length sections))) as [msg Hmsg]; [lia | lia | done |].
    exists msg. by rewrite Hmsg.
  - intros Hsize Halloc.
    destruct (np_zeros_refused can_allocate time_window
                (Z.of_nat (length sections))) as [msg Hmsg]; [lia | lia | done | done |].
    exists msg. by rewrite Hmsg.
Qed.

Lemma create_time_space_grid_zeros_witness :
  let w := engine_with lenient_solver [test_movement] in
  (∃ grid, create_time_space_grid lenient_solver (λ bytes, bytes <? 2 ^ 30)
             [sample_section; with_capacity 1 sample_section]
             settings.TIME_WINDOW w
           = (Returned grid, w)
           ∧ shape grid = (24, 2)
           ∧ array_get grid 23 1 = Some (S754_zero false))
  ∧ ∃ msg, create_time_space_grid lenient_solver (λ bytes, bytes <? 2 ^ 30)
             [sample_section] (2 ^ 61) w
           = (Raised (ValueError msg), w).
Proof.
  intros w.
  split.
  - destruct (create_time_space_grid_zeros lenient_solver (λ bytes, bytes <? 2 ^ 30) w
                [sample_section; with_capacity 1 sample_section]
                settings.TIME_WINDOW) as [Hok _].
    { unfold settings.TIME_WINDOW. lia. }
    destruct Hok as (grid & Hrun & Hshape & _ & _ & Hzero).
    + vm_compute. discriminate.
    + reflexivity.
    + exists grid. split; [exact Hrun | split; [exact Hshape |]].
      apply Hzero; unfold settings.TIME_WINDOW; simpl; lia.
  - destruct (create_time_space_grid_zeros lenient_solver (λ bytes, bytes <? 2 ^ 30) w
                [sample_section] (2 ^ 61)) as (_ & Hbig & _).
    { lia. }
    apply Hbig. vm_compute. reflexivity.
Defined.

(** ** optimize_schedule, step by step *)

Lemma for_each_no_sections M (time_matrix : option ndarray)
    (trains : list Train.t) (acc : VarDict) (w : world M) :
  for_each trains (λ train variables,
    for_each ([] : list TrackSection.t) (λ section variables,
      bind (shape_0 M time_matrix) (λ hi,
        bind (self_solver_IntVar M 0 hi
                ("time_" +:+ Train.train_id train +:+ "_"
                   +:+ TrackSection.section_id section)) (λ v,
          ret (dict_set (Train.train_id train, TrackSection.section_id section)
                 v variables)))) variables) acc w
  = (Returned acc, w).
Proof. revert acc. induction trains as [|t ts IH]; intros acc; [done | apply IH]. Qed.

Lemma define_variables_empty M time_matrix trains sections (w : world M) :
  trains = [] ∨ sections = [] →
  define_variables M time_matrix trains sections w = (Returned [], w).
Proof.
  intros [-> | ->]; first done.
  apply for_each_no_sections.
Qed.

Lemma define_variables_no_matrix M trains sections (w : world M) :
  trains ≠ [] → sections ≠ [] →
  define_variables M None trains sections w = (Raised no_shape, w).
Proof. destruct trains, sections; done. Qed.

(** With a train and a section, the first [time_matrix.shape] raises. *)
Lemma optimize_schedule_nonempty M trains sections current_movements (w : world M) :
  trains ≠ [] → sections ≠ [] →
  optimize_schedule M trains sections current_movements w = (Raised no_shape, w).
Proof.
  intros Ht Hs. unfold optimize_schedule, _create_time_matrix, _create_constraints.
  rewrite bind_ret_l, bind_ret_l. unfold bind at 1.
  by rewrite define_variables_no_matrix.
Qed.

(** Without trains or without sections the dict stays empty and the outcome
    is that of [self.solver.Minimize(0)]. *)
Lemma optimize_schedule_empty M trains sections current_movements (w : world M) :
  trains = [] ∨ sections = [] →
  optimize_schedule M trains sections current_movements w
  = match Solver_Minimize M (EConst 0) (solver w) with
    | (Returned _, s) => (Returned None, Build_world M s (heap w))
    | (Raised e, s) => (Raised e, Build_world M s (heap w))
    end.
Proof.
  intros He. unfold optimize_schedule, _create_time_matrix, _create_constraints.
  rewrite bind_ret_l, bind_ret_l. unfold bind at 1.
  rewrite define_variables_empty by done.
  unfold _add_safety_constraints, _add_capacity_constraints,
    _add_sequence_constraints, _solve_optimization, _create_movement_schedule.
  rewrite !bind_ret_l. unfold bind, self_solver_Minimize, ret. simpl.
  change (objective_argument []) with (EConst 0).
  by destruct (Solver_Minimize M (EConst 0) (solver w)) as [[o|e] s].
Qed.

Lemma list_empty_dec {A : Type} (xs : list A) : xs = [] ∨ xs ≠ [].
Proof. destruct xs; [by left | by right]. Qed.

Lemma trains_sections_cases (trains : list Train.t) (sections : list TrackSection.t) :
  (trains ≠ [] ∧ sections ≠ []) ∨ (trains = [] ∨ sections = []).
Proof.
  destruct (list_empty_dec trains), (list_empty_dec sections); auto.
Qed.


Lemma optimize_schedule_heap M trains sections current_movements (w : world M) :
  heap (optimize_schedule M trains sections current_movements w).2 = heap w.
Proof.
  destruct (trains_sections_cases trains sections) as [[Ht Hs] | He].
  - by rewrite optimize_schedule_nonempty.
  - rewrite optimize_schedule_empty by done.
    by destruct (Solver_Minimize M (EConst 0) (solver w)) as [[o|e] s].
Qed.


(** ** Claims about optimize_schedule *)






(** ** The objective *)












(** ** The data model *)

(** Claim C7 as stated fails: a movement that leaves before it enters, is
    planned faster than its section allows and has a status outside the four
    names is a value of [TrainMovement] and the engine accepts it; the
    movement of the repository's test has the status "scheduled", which is
    none of the four names either. *)
Lemma accepted_movement_breaks_invariant :
  let m := movement_of sample_train sample_section
             (now + 3600) now (float_of_Z 200) "cancelled" in
  let w := engine_with lenient_solver [m; test_movement] in
  detect_conflicts lenient_solver (Some 1%positive) w = (Returned [], w)
  ∧ times_ordered m = false
  ∧ speed_within_limit m = false
  ∧ status_known m = false
  ∧ times_ordered test_movement = true
  ∧ speed_within_limit test_movement = true
  ∧ movement_invariant test_movement = false.
Proof. repeat split. Qed.

(** Claim C7, amended: [TrainMovement] fixes the types of its fields and
    nothing more: the times are any two datetimes, the planned speed is any
    float and the status is any string.  Each of the three conditions holds
    or fails independently of the other two among the movements that the
    engine accepts, with any solver. *)
Theorem movement_fields_unconstrained (ordered within known : bool) :
  ∃ m, times_ordered m = ordered
       ∧ speed_within_limit m = within
       ∧ status_known m = known
       ∧ ∀ M, detect_conflicts M (Some 1%positive) (engine_with M [m; test_movement])
              = (Returned [], engine_with M [m; test_movement]).
Proof.
  exists (movement_of sample_train sample_section
            now (if ordered then now + 3600 else now)
            (float_of_Z (if within then 100 else 200))
            (if known then "Scheduled" else "scheduled")).
  split; [|split; [|split]].
  - by destruct ordered.
  - by destruct within.
  - by destruct known.
  - intros M. eapply detect_conflicts_empty. apply lookup_singleton_eq.
Qed.

(** * Further properties of the code *)

(** ** The conflict detector, with any [_check_conflict] *)

Lemma length_reported_pairs verdict ms :
  (2 * length (reported_pairs verdict ms) ≤ length ms * (length ms - 1))%nat.
Proof.
  induction ms as [|m rest IH]; simpl; first lia.
  rewrite length_app, length_map.
  pose proof (length_filter (λ m', truthy (verdict m m') = true) rest) as Hf.
  rewrite Nat.sub_0_r. nia.
Qed.

Lemma filter_all_true {A : Type} (P : A → Prop) `{∀ x, Decision (P x)} (l : list A) :
  (∀ x, P x) → filter P l = l.
Proof.
  intros HP. induction l as [|x l IH]; first done.
  rewrite filter_cons, decide_True by done. by rewrite IH.
Qed.

Lemma length_reported_pairs_all verdict ms :
  (∀ a b, truthy (verdict a b) = true) →
  (2 * length (reported_pairs verdict ms) = length ms * (length ms - 1))%nat.
Proof.
  intros Hall. induction ms as [|m rest IH]; simpl; first lia.
  rewrite length_app, length_map, filter_all_true by (intros ?; apply Hall).
  rewrite Nat.sub_0_r. nia.
Qed.

Lemma reported_pairs_sublist verdict ms ms' :
  reported_pairs verdict ms `sublist_of` reported_pairs verdict (ms ++ ms').
Proof.
  induction ms as [|m rest IH]; simpl.
  - apply sublist_nil_l.
  - apply sublist_app; last done.
    rewrite filter_app, fmap_app. apply sublist_inserts_r. done.
Qed.

Lemma reported_pairs_first_in verdict ms a b :
  (a, b) ∈ reported_pairs verdict ms → a ∈ ms ∧ b ∈ ms.
Proof.
  intros (i & j & _ & Hi & Hj & _)%elem_of_reported_pairs.
  split; by eapply list_elem_of_lookup_2.
Qed.

Lemma reported_pairs_NoDup verdict ms :
  NoDup ms →
  NoDup (reported_pairs verdict ms)
  ∧ ∀ a b, (a, b) ∈ reported_pairs verdict ms → a ≠ b.
Proof.
  induction 1 as [|m rest Hnotin Hnd [IHnd IHne]]; simpl.
  - split; [constructor | by intros a b ?%elem_of_nil].
  - split.
    + apply NoDup_app. split; [|split; [|done]].
      * apply (NoDup_fmap_2 (pair m)). by apply NoDup_filter.
      * intros [a b] (m' & [= -> ->] & _)%list_elem_of_fmap Hin.
        apply reported_pairs_first_in in Hin as [Hin _]. done.
    + intros a b [(m' & [= -> ->] & [_ Hin]%list_elem_of_filter)%list_elem_of_fmap
                 | Hin]%elem_of_app.
      * intros ->. done.
      * by apply IHne.
Qed.

(** With fewer than two movements there is no pair to compare: the result
    is the empty list and [_check_conflict] is never consulted, whatever it
    would do. *)
Theorem detect_conflicts_fewer_than_two M
    (check : TrainMovement.t → TrainMovement.t → Py M (option bool))
    (w : world M) l ms :
  heap w !! l = Some ms → (length ms ≤ 1)%nat →
  detect_conflicts_with M check (Some l) w = (Returned [], w).
Proof.
  intros Hl Hlen. unfold detect_conflicts_with, bind. simpl. rewrite Hl.
  destruct ms as [|m [|m' rest]]; [done | done | simpl in Hlen; lia].
Qed.

Lemma detect_conflicts_fewer_than_two_witness :
  let always : TrainMovement.t → TrainMovement.t → Py strict_solver (option bool) :=
    λ _ _, raise (ValueError "never called") in
  detect_conflicts_with strict_solver always (Some 1%positive)
    (engine_with strict_solver [test_movement])
  = (Returned [], engine_with strict_solver [test_movement]).
Proof.
  intros always.
  apply (detect_conflicts_fewer_than_two strict_solver always
           (engine_with strict_solver [test_movement]) 1%positive [test_movement]).
  - reflexivity.
  - simpl. lia.
Defined.

(** When [_check_conflict] raises on the first pair, [detect_conflicts]
    raises the same exception, in the state the check left, and returns no
    partial list. *)
Theorem detect_conflicts_check_raises M
    (check : TrainMovement.t → TrainMovement.t → Py M (option bool))
    (w w' : world M) l m0 m1 rest e :
  heap w !! l = Some (m0 :: m1 :: rest) →
  check m0 m1 w = (Raised e, w') →
  detect_conflicts_with M check (Some l) w = (Raised e, w').
Proof.
  intros Hl Hc. unfold detect_conflicts_with, bind. simpl. rewrite Hl.
  simpl. unfold bind. by rewrite Hc.
Qed.

Lemma detect_conflicts_check_raises_witness :
  let failing : TrainMovement.t → TrainMovement.t → Py lenient_solver (option bool) :=
    λ _ _, raise (ValueError "no time zone") in
  let w := engine_with lenient_solver [test_movement; test_movement; test_movement] in
  detect_conflicts_with lenient_solver failing (Some 1%positive) w
  = (Raised (ValueError "no time zone"), w).
Proof.
  intros failing w.
  apply (detect_conflicts_check_raises lenient_solver failing w w 1%positive
           test_movement test_movement [test_movement]); reflexivity.
Defined.

(** Every pair of positions is compared at most once: of [n] movements at
    most [n (n - 1) / 2] pairs are reported, and exactly that many when
    [_check_conflict] answers truthy throughout. *)
Theorem detect_conflicts_count M
    (check : TrainMovement.t → TrainMovement.t → Py M (option bool))
    (verdict : world M → TrainMovement.t → TrainMovement.t → option bool)
    (w : world M) l ms :
  (∀ m1 m2 w0, check m1 m2 w0 = (Returned (verdict w0 m1 m2), w0)) →
  heap w !! l = Some ms →
  ∃ cs, detect_conflicts_with M check (Some l) w = (Returned cs, w)
        ∧ (2 * length cs ≤ length ms * (length ms - 1))%nat
        ∧ ((∀ a b, truthy (verdict w a b) = true) →
           (2 * length cs = length ms * (length ms - 1))%nat).
Proof.
  intros Hcheck Hl. exists (reported_pairs (verdict w) ms). split; [|split].
  - by apply detect_conflicts_with_reported.
  - apply length_reported_pairs.
  - apply length_reported_pairs_all.
Qed.

Lemma detect_conflicts_count_witness :
  let always : TrainMovement.t → TrainMovement.t → Py lenient_solver (option bool) :=
    λ _ _, ret (Some true) in
  let ms := [test_movement; test_movement; test_movement] in
  let w := engine_with lenient_solver ms in
  ∃ cs, detect_conflicts_with lenient_solver always (Some 1%positive) w
        = (Returned cs, w)
        ∧ (2 * length cs = 3 * 2)%nat.
Proof.
  intros always ms w.
  destruct (detect_conflicts_count lenient_solver always (λ _ _ _, Some true)
              w 1%positive ms) as (cs & Hrun & _ & Hall); [done | done |].
  exists cs. split; first exact Hrun. by apply Hall.
Defined.

(** Appending movements to a list only adds conflicts: what is reported for
    a list is reported, in the same order, for every extension of it. *)
Theorem detect_conflicts_grows_with_list M
    (check : TrainMovement.t → TrainMovement.t → Py M (option bool))
    (verdict : world M → TrainMovement.t → TrainMovement.t → option bool)
    (w : world M) l l' ms ms' :
  (∀ m1 m2 w0, check m1 m2 w0 = (Returned (verdict w0 m1 m2), w0)) →
  heap w !! l = Some ms → heap w !! l' = Some (ms ++ ms') →
  ∃ cs cs', detect_conflicts_with M check (Some l) w = (Returned cs, w)
            ∧ detect_conflicts_with M check (Some l') w = (Returned cs', w)
            ∧ cs `sublist_of` cs'.
Proof.
  intros Hcheck Hl Hl'.
  exists (reported_pairs (verdict w) ms), (reported_pairs (verdict w) (ms ++ ms')).
  split; [|split].
  - by apply detect_conflicts_with_reported.
  - by apply detect_conflicts_with_reported.
  - apply reported_pairs_sublist.
Qed.

Lemma detect_conflicts_grows_with_list_witness :
  let by_gap : TrainMovement.t → TrainMovement.t → Py lenient_solver (option bool) :=
    λ m1 m2, ret (Some (spec_pair_conflict settings.SAFETY_BUFFER m1 m2)) in
  let single_track := with_capacity 1 sample_section in
  let mov1 := movement_of sample_train single_track
                now (now + 3600) (float_of_Z 100) "scheduled" in
  let mov2 := movement_of (train_with "TR002" LOW (float_of_Z 80)) single_track
                (now + 1800) (now + 5400) (float_of_Z 80) "scheduled" in
  let w : world lenient_solver :=
    Build_world lenient_solver 0%nat
      {[ 1%positive := [mov1]; 2%positive := [mov1; mov2] ]} in
  ∃ cs cs', detect_conflicts_with lenient_solver by_gap (Some 1%positive) w
            = (Returned cs, w)
            ∧ detect_conflicts_with lenient_solver by_gap (Some 2%positive) w
              = (Returned cs', w)
            ∧ cs `sublist_of` cs'.
Proof.
  intros by_gap single_track mov1 mov2 w.
  apply (detect_conflicts_grows_with_list lenient_solver by_gap
           (λ _ m1 m2, Some (spec_pair_conflict settings.SAFETY_BUFFER m1 m2))
           w 1%positive 2%positive [mov1] [mov2]); reflexivity.
Defined.

(** On a list of distinct movements no pair is reported twice and no
    movement is reported against itself. *)
Theorem detect_conflicts_distinct_pairs M
    (check : TrainMovement.t → TrainMovement.t → Py M (option bool))
    (verdict : world M → TrainMovement.t → TrainMovement.t → option bool)
    (w : world M) l ms :
  (∀ m1 m2 w0, check m1 m2 w0 = (Returned (verdict w0 m1 m2), w0)) →
  heap w !! l = Some ms → NoDup ms →
  ∃ cs, detect_conflicts_with M check (Some l) w = (Returned cs, w)
        ∧ NoDup cs
        ∧ ∀ a b, (a, b) ∈ cs → a ≠ b ∧ a ∈ ms ∧ b ∈ ms.
Proof.
  intros Hcheck Hl Hnd. exists (reported_pairs (verdict w) ms).
  destruct (reported_pairs_NoDup (verdict w) ms Hnd) as [Hnd' Hne].
  split; [|split].
  - by apply detect_conflicts_with_reported.
  - done.
  - intros a b Hin. split; [by apply Hne | by eapply reported_pairs_first_in].
Qed.

Lemma detect_conflicts_distinct_pairs_witness :
  let always : TrainMovement.t → TrainMovement.t → Py lenient_solver (option bool) :=
    λ _ _, ret (Some true) in
  let other := movement_of (train_with "TR002" LOW (float_of_Z 80)) sample_section
                 (now + 1800) (now + 5400) (float_of_Z 80) "scheduled" in
  let w := engine_with lenient_solver [test_movement; other] in
  ∃ cs, detect_conflicts_with lenient_solver always (Some 1%positive) w
        = (Returned cs, w)
        ∧ NoDup cs
        ∧ ∀ a b, (a, b) ∈ cs → a ≠ b ∧ a ∈ [test_movement; other]
                               ∧ b ∈ [test_movement; other].
Proof.
  intros always other w.
  apply (detect_conflicts_distinct_pairs lenient_solver always (λ _ _ _, Some true)
           w 1%positive [test_movement; other]); [done | done |].
  apply NoDup_cons. split; last apply NoDup_singleton.
  intros [Heq | Hin]%elem_of_cons; [discriminate Heq | by apply elem_of_nil in Hin].
Defined.

(** ** The routes and the other methods of the engine *)

(** The route /conflicts answers the empty list for every list of movements
    and never raises on one; on [None] it raises [HTTPException] 500 with
    the message of the [TypeError].  The state stays as it was. *)
Theorem api_detect_conflicts_route M (w : world M) :
  (∀ l ms, heap w !! l = Some ms →
           api_detect_conflicts M (Some l) w = (Returned [], w))
  ∧ api_detect_conflicts M None w
    = (Raised (HTTPException 500 "'NoneType' object is not iterable"), w).
Proof.
  split; last done.
  intros l ms Hl. unfold api_detect_conflicts, try_except_500.
  by rewrite (detect_conflicts_empty M w l ms Hl).
Qed.

Lemma api_detect_conflicts_route_witness :
  let w := engine_with strict_solver [test_movement; test_movement] in
  api_detect_conflicts strict_solver (Some 1%positive) w = (Returned [], w).
Proof.
  intros w.
  destruct (api_detect_conflicts_route strict_solver w) as [Hlist _].
  apply (Hlist 1%positive [test_movement; test_movement]). reflexivity.
Defined.

(** A negative time window makes [create_time_space_grid] raise
    [ValueError], whatever the sections, with the state as it was. *)
Theorem create_time_space_grid_negative M can_allocate (w : world M) sections
    time_window :
  time_window < 0 →
  create_time_space_grid M can_allocate sections time_window w
  = (Raised (ValueError "negative dimensions are not allowed"), w).
Proof.
  intros Htw. unfold create_time_space_grid, np_zeros.
  destruct (Z.ltb_spec time_window 0); [done | lia].
Qed.

Lemma create_time_space_grid_negative_witness :
  create_time_space_grid lenient_solver (λ _, true) [sample_section] (-1)
    (engine_with lenient_solver [])
  = (Raised (ValueError "negative dimensions are not allowed"),
     engine_with lenient_solver []).
Proof.
  apply (create_time_space_grid_negative lenient_solver (λ _, true)
           (engine_with lenient_solver []) [sample_section] (-1)).
  lia.
Defined.

(** [optimize_schedule] never creates a solver variable and never reads a
    list object: its outcome and the solver state it leaves are the same
    for any two behaviours of [IntVar], any two stores and any two values of
    [current_movements]; each store is left as it was. *)
Theorem optimize_schedule_never_creates_variables (St Ov : Type)
    (mk : string → St)
    (iv iv' : Z → Z → string → St → outcome IntVar * St)
    (mn : IntExpr → St → outcome Ov * St)
    trains sections current_movements current_movements' (s : St)
    (h h' : gmap loc (list TrainMovement.t)) :
  let M := Build_SolverModel St Ov mk iv mn in
  let M' := Build_SolverModel St Ov mk iv' mn in
  let r := optimize_schedule M trains sections current_movements
             (Build_world M s h) in
  let r' := optimize_schedule M' trains sections current_movements'
              (Build_world M' s h') in
  r.1 = r'.1 ∧ solver r.2 = solver r'.2 ∧ heap r.2 = h ∧ heap r'.2 = h'.
Proof.
  intros M M' r r'. subst r r'.
  destruct (trains_sections_cases trains sections) as [[Ht Hs] | He].
  - by rewrite !optimize_schedule_nonempty.
  - rewrite !optimize_schedule_empty by done. simpl.
    by destruct (mn (EConst 0) s) as [[o|e] s'].
Qed.

(** ** src/ml_models.py and the route /analyze/pattern *)

Section ml_facts.
Context {V Arr : Type}.
Implicit Types (d : gmap string V) (traffic_data : list (gmap string V)).

Lemma sequence_row_raises d e :
  sequence_row d = Raised e →
  ∃ key, e = KeyError key ∧ key ∈ sequence_keys ∧ d !! key = None.
Proof.
  unfold sequence_row, getitem, sequence_keys.
  destruct (d !! "train_count") eqn:E1; simpl;
    last (intros [= <-]; eexists; split; [done | split; [|done]]; repeat constructor).
  destruct (d !! "avg_speed") eqn:E2; simpl;
    last (intros [= <-]; eexists; split; [done | split; [|done]]; repeat constructor).
  destruct (d !! "congestion_level") eqn:E3; simpl;
    last (intros [= <-]; eexists; split; [done | split; [|done]]; repeat constructor).
  done.
Qed.

Lemma sequence_row_returns d :
  has_keys sequence_keys d →
  ∃ row, sequence_row d = Returned row ∧ sequence_row_of d row.
Proof.
  intros Hk. unfold has_keys, sequence_keys in Hk.
  apply Forall_cons in Hk as [[a Ha] Hk].
  apply Forall_cons in Hk as [[b Hb] Hk].
  apply Forall_cons in Hk as [[c Hc] _].
  exists [a; b; c]. split.
  - unfold sequence_row, getitem. by rewrite Ha, Hb, Hc.
  - by exists a, b, c.
Qed.

Lemma sequence_rows_raises (seq : list (gmap string V)) e :
  sequence_rows seq = Raised e →
  ∃ key d, e = KeyError key ∧ key ∈ sequence_keys ∧ d ∈ seq ∧ d !! key = None.
Proof.
  induction seq as [|d rest IH]; simpl; first done.
  destruct (sequence_row d) as [row|e0] eqn:Er; simpl.
  - destruct (sequence_rows rest) as [rows|e1]; simpl; first done.
    intros [= <-]. destruct (IH eq_refl) as (key & d' & ? & ? & ? & ?).
    exists key, d'. split; [done|]. split; [done|]. split; [by right | done].
  - intros [= <-]. apply sequence_row_raises in Er as (key & ? & ? & ?).
    exists key, d. split; [done|]. split; [done|]. split; [by left | done].
Qed.

Lemma sequence_rows_returns (seq : list (gmap string V)) :
  Forall (has_keys sequence_keys) seq →
  ∃ rows, sequence_rows seq = Returned rows ∧ Forall2 sequence_row_of seq rows.
Proof.
  induction 1 as [|d rest Hd _ (rows & Hrows & Hall)]; simpl.
  - by exists [].
  - destruct (sequence_row_returns d Hd) as (row & Hrow & Hof).
    exists (row :: rows). rewrite Hrow, Hrows. simpl. split; [done | by constructor].
Qed.


Lemma collect_sequences_raises traffic_data indices sequences targets e :
  Forall (λ i, (i + sequence_length < length traffic_data)%nat) indices →
  collect_sequences traffic_data indices sequences targets = Raised e →
  ∃ key d, e = KeyError key ∧ key ∈ sequence_keys
           ∧ d ∈ traffic_data ∧ d !! key = None.
Proof.
  intros Hin. revert sequences targets.
  induction Hin as [|i rest Hi _ IH]; intros sequences targets; simpl.
  { intros Hx. discriminate Hx. }
  unfold list_item.
  destruct (lookup_lt_is_Some_2 traffic_data _ Hi) as [target Ht]. rewrite Ht. simpl.
  destruct (sequence_rows (take sequence_length (drop i traffic_data)))
    as [rows|e0] eqn:Er; simpl.
  - unfold getitem at 1.
    destruct (target !! "congestion_level") as [c|] eqn:Ec; simpl.
    + apply IH.
    + intros [= <-]. exists "congestion_level", target.
      split; [done|]. split; [unfold sequence_keys; repeat constructor|].
      split; [by eapply list_elem_of_lookup_2 | done].
  - intros [= <-]. apply sequence_rows_raises in Er as (key & d & ? & ? & Hd & ?).
    exists key, d. split; [done|]. split; [done|]. split; [|done].
    apply (subseteq_take sequence_length), (subseteq_drop i) in Hd. done.
Qed.

Lemma collect_sequences_returns traffic_data indices sequences targets :
  Forall (has_keys sequence_keys) traffic_data →
  Forall (λ i, (i + sequence_length < length traffic_data)%nat) indices →
  ∃ new_sequences new_targets,
    collect_sequences traffic_data indices sequences targets
    = Returned (sequences ++ new_sequences, targets ++ new_targets)
    ∧ Forall2 (λ i rows,
                 Forall2 sequence_row_of
                   (take sequence_length (drop i traffic_data)) rows)
              indices new_sequences
    ∧ Forall2 (λ i target,
                 ∃ d c, traffic_data !! (i + sequence_length)%nat = Some d
                        ∧ d !! "congestion_level" = Some c ∧ target = [c])
              indices new_targets.
Proof.
  intros Hkeys Hin. revert sequences targets.
  induction Hin as [|i rest Hi _ IH]; intros sequences targets; simpl.
  - exists [], []. by rewrite !app_nil_r.
  - unfold list_item.
    destruct (lookup_lt_is_Some_2 traffic_data _ Hi) as [target Ht]. rewrite Ht. simpl.
    destruct (sequence_rows_returns (take sequence_length (drop i traffic_data)))
      as (rows & Hrows & Hof).
    { by apply Forall_take, Forall_drop. }
    rewrite Hrows. simpl.
    assert (Hc : is_Some (target !! "congestion_level")).
    { rewrite Forall_forall in Hkeys.
      specialize (Hkeys target (list_elem_of_lookup_2 _ _ _ Ht)).
      unfold has_keys, sequence_keys in Hkeys.
      rewrite Forall_forall in Hkeys. apply Hkeys. set_solver. }
    destruct Hc as [c Hc]. unfold getitem at 1. rewrite Hc. simpl.
    destruct (IH (sequences ++ [rows]) (targets ++ [[c]]))
      as (ns & nt & Hrun & Hs & Htg).
    exists (rows :: ns), ([c] :: nt). rewrite Hrun, <- !app_assoc. simpl.
    split; [done | split; constructor; eauto].
Qed.

Lemma window_indices traffic_data :
  Forall (λ i, (i + sequence_length < length traffic_data)%nat)
         (seq 0 (length traffic_data - sequence_length)).
Proof.
  apply Forall_forall. intros i [_ Hi]%elem_of_seq. lia.
Qed.


(** With at most 24 records there is no window: [prepare_sequence_data]
    hands two empty lists to [np.array] and raises no [KeyError], whatever
    the records hold. *)
Theorem prepare_sequence_data_short (np_array : ∀ A : Type, list A → outcome Arr)
    traffic_data :
  (length traffic_data ≤ sequence_length)%nat →
  sequence_lists traffic_data = Returned ([], [])
  ∧ prepare_sequence_data np_array traffic_data
    = (X ← np_array (list (list V)) []; y ← np_array (list V) []; mret (X, y)).
Proof.
  intros Hlen. unfold prepare_sequence_data, sequence_lists.
  by replace (length traffic_data - sequence_length)%nat with 0%nat by lia.
Qed.

(** When every record has the three keys, [prepare_sequence_data] reaches
    [np.array] and the lists handed to it hold one window per index below [len - 24]: window [i] has the 24 rows
    [train_count, avg_speed, congestion_level] of the records [i] to
    [i + 23], and target [i] is the congestion level of record [i + 24]. *)
Theorem sequence_lists_windows (np_array : ∀ A : Type, list A → outcome Arr)
    traffic_data :
  Forall (has_keys sequence_keys) traffic_data →
  ∃ sequences targets,
    sequence_lists traffic_data = Returned (sequences, targets)
    ∧ prepare_sequence_data np_array traffic_data
      = (X ← np_array _ sequences; y ← np_array _ targets; mret (X, y))
    ∧ length sequences = (length traffic_data - sequence_length)%nat
    ∧ length targets = (length traffic_data - sequence_length)%nat
    ∧ (∀ i rows, sequences !! i = Some rows →
         length rows = sequence_length
         ∧ Forall2 sequence_row_of
             (take sequence_length (drop i traffic_data)) rows)
    ∧ (∀ i target, targets !! i = Some target →
         ∃ d c, traffic_data !! (i + sequence_length)%nat = Some d
                ∧ d !! "congestion_level" = Some c ∧ target = [c]).
Proof.
  intros Hkeys.
  destruct (collect_sequences_returns traffic_data
              (seq 0 (length traffic_data - sequence_length)) [] [] Hkeys
              (window_indices traffic_data))
    as (sequences & targets & Hrun & Hs & Ht).
  exists sequences, targets. split; first done.
  split.
  { unfold prepare_sequence_data, sequence_lists. by rewrite Hrun. }
  pose proof (Forall2_length _ _ _ Hs) as Hls.
  pose proof (Forall2_length _ _ _ Ht) as Hlt.
  rewrite length_seq in Hls, Hlt. split; [done | split; [done | split]].
  - intros i rows Hi.
    destruct (Forall2_lookup_r _ _ _ _ _ Hs Hi) as (i' & [-> Hlt']%lookup_seq & Hof).
    simpl in Hof. split; last done.
    rewrite <- (Forall2_length _ _ _ Hof), length_take, length_drop. lia.
  - intros i target Hi.
    destruct (Forall2_lookup_r _ _ _ _ _ Ht Hi) as (i' & [-> _]%lookup_seq & Hof).
    done.
Qed.

(** Before [np.array] is reached [prepare_sequence_data] raises nothing but
    [KeyError]: the key is one of the three, some record lacks it, and there
    are more than 24 records; the index [i + 24] is always in range. *)
Theorem sequence_lists_raises (np_array : ∀ A : Type, list A → outcome Arr)
    traffic_data e :
  sequence_lists traffic_data = Raised e →
  prepare_sequence_data np_array traffic_data = Raised e
  ∧ ∃ key d, e = KeyError key ∧ key ∈ sequence_keys
             ∧ d ∈ traffic_data ∧ d !! key = None
             ∧ (sequence_length < length traffic_data)%nat.
Proof.
  intros Hrun. split.
  { unfold prepare_sequence_data. by rewrite Hrun. }
  destruct (decide (length traffic_data ≤ sequence_length)%nat) as [Hle|Hgt].
  - unfold sequence_lists in Hrun.
    replace (length traffic_data - sequence_length)%nat with 0%nat in Hrun by lia.
    discriminate Hrun.
  - destruct (collect_sequences_raises traffic_data _ [] [] e
                (window_indices traffic_data) Hrun) as (key & d & ? & ? & ? & ?).
    exists key, d. repeat (split; first done). lia.
Qed.

(** The route /analyze/pattern never answers: [prepare_sequence_data]
    returns a pair, which [predict_pattern] cannot index, so every request
    ends in [HTTPException] 500, whatever numpy, keras and scikit-learn do.
    The detail is the message of that [TypeError], or of the exception
    [prepare_sequence_data] raised. *)
Theorem analyze_pattern_always_fails
    (np_array : ∀ A : Type, list A → outcome Arr)
    (model_predict_first : Arr → outcome float)
    (anomaly_detector_predict : Arr → outcome Arr)
    (tolist : Arr → list Z) traffic_data :
  ∃ detail,
    analyze_pattern np_array model_predict_first anomaly_detector_predict
      tolist traffic_data
    = Raised (HTTPException 500 detail)
    ∧ (detail = "tuple indices must be integers or slices, not tuple"
       ∨ ∃ e, prepare_sequence_data np_array traffic_data = Raised e
              ∧ detail = exn_str e).
Proof.
  unfold analyze_pattern.
  destruct (prepare_sequence_data np_array traffic_data) as [data|e]; simpl.
  - eexists. split; [done | by left].
  - eexists. split; [done | right; by exists e].
Qed.


(** *** DelayPredictor.prepare_features *)

Ltac missing_key :=
  intros [= <-]; eexists; split; [done | split; [|done]];
  unfold feature_keys; repeat constructor.

Lemma feature_row_raises d e :
  feature_row d = Raised e →
  ∃ key, e = KeyError key ∧ key ∈ feature_keys ∧ d !! key = None.
Proof.
  unfold feature_row, getitem.
  destruct (d !! "day_of_week") eqn:E1; simpl; last missing_key.
  destruct (d !! "time_of_day") eqn:E2; simpl; last missing_key.
  destruct (d !! "train_type") eqn:E3; simpl; last missing_key.
  destruct (d !! "section_load") eqn:E4; simpl; last missing_key.
  destruct (d !! "weather_condition") eqn:E5; simpl; last missing_key.
  destruct (d !! "maintenance_status") eqn:E6; simpl; last missing_key.
  intros Hx. discriminate Hx.
Qed.

Lemma feature_row_returns d :
  has_keys feature_keys d →
  ∃ row y, feature_row d = Returned row ∧ getitem d "delay" = Returned y
           ∧ feature_row_of d row ∧ d !! "delay" = Some y.
Proof.
  intros Hk. unfold has_keys, feature_keys in Hk.
  repeat (apply Forall_cons in Hk as [[? ?] Hk]).
  eexists _, _. unfold feature_row, getitem.
  repeat match goal with H : _ !! _ = Some _ |- _ => rewrite H end.
  simpl. split; [done | split; [done | split; [|done]]].
  unfold feature_row_of. eexists _, _, _, _, _, _. by repeat split.
Qed.

Lemma feature_row_returned_keys d row y :
  feature_row d = Returned row → getitem d "delay" = Returned y →
  has_keys feature_keys d.
Proof.
  unfold feature_row, getitem, has_keys, feature_keys.
  destruct (d !! "day_of_week") eqn:E1; simpl; last done.
  destruct (d !! "time_of_day") eqn:E2; simpl; last done.
  destruct (d !! "train_type") eqn:E3; simpl; last done.
  destruct (d !! "section_load") eqn:E4; simpl; last done.
  destruct (d !! "weather_condition") eqn:E5; simpl; last done.
  destruct (d !! "maintenance_status") eqn:E6; simpl; last done.
  destruct (d !! "delay") eqn:E7; simpl; last done.
  intros _ _. repeat (constructor; first by eexists). constructor.
Qed.

Lemma collect_features_raises historical_data (features : list (list V)) labels e :
  collect_features historical_data features labels = Raised e →
  ∃ key d, e = KeyError key ∧ key ∈ feature_keys
           ∧ d ∈ historical_data ∧ d !! key = None.
Proof.
  revert features labels.
  induction historical_data as [|d rest IH]; intros features labels; simpl.
  { intros Hx. discriminate Hx. }
  destruct (feature_row d) as [row|e0] eqn:Er; simpl.
  - unfold getitem at 1. destruct (d !! "delay") as [y|] eqn:Ey; simpl.
    + intros Hrest. apply IH in Hrest as (key & d' & ? & ? & ? & ?).
      exists key, d'. split; [done|]. split; [done|]. split; [by right | done].
    + intros [= <-]. exists "delay", d.
      split; [done|]. split; [unfold feature_keys; repeat constructor|].
      split; [by left | done].
  - intros [= <-]. apply feature_row_raises in Er as (key & ? & ? & ?).
    exists key, d. split; [done|]. split; [done|]. split; [by left | done].
Qed.

Lemma collect_features_returns historical_data (features : list (list V)) labels :
  Forall (has_keys feature_keys) historical_data →
  ∃ new_features new_labels,
    collect_features historical_data features labels
    = Returned (features ++ new_features, labels ++ new_labels)
    ∧ Forall2 feature_row_of historical_data new_features
    ∧ Forall2 (λ d y, d !! "delay" = Some y) historical_data new_labels.
Proof.
  intros Hkeys. revert features labels.
  induction Hkeys as [|d rest Hd _ IH]; intros features labels; simpl.
  - exists [], []. by rewrite !app_nil_r.
  - destruct (feature_row_returns d Hd) as (row & y & Hrow & Hy & Hof & Hdelay).
    rewrite Hrow. simpl. rewrite Hy. simpl.
    destruct (IH (features ++ [row]) (labels ++ [y])) as (nf & nl & Hrun & Hf & Hl).
    exists (row :: nf), (y :: nl). rewrite Hrun, <- !app_assoc. simpl.
    split; [done | split; by constructor].
Qed.

(** A record that lacks one of the seven keys makes [prepare_features]
    raise [KeyError] for a key that some record lacks, before [np.array]
    and the scaler are reached: the scaler stays as it was. *)
Theorem prepare_features_missing_key
    (np_array : ∀ A : Type, list A → outcome Arr) (StandardScaler : Type)
    (fit_transform : Arr → StandardScaler → outcome Arr * StandardScaler)
    historical_data (scaler : StandardScaler) :
  ¬ Forall (has_keys feature_keys) historical_data →
  ∃ key d,
    prepare_features np_array StandardScaler fit_transform historical_data scaler
    = (Raised (KeyError key), scaler)
    ∧ key ∈ feature_keys ∧ d ∈ historical_data ∧ d !! key = None.
Proof.
  intros Hnot. unfold prepare_features.
  destruct (collect_features historical_data [] []) as [[fs ls]|e] eqn:Erun.
  - exfalso. apply Hnot. clear Hnot.
    assert (Hgen : ∀ (hd : list (gmap string V)) f l fs ls,
              collect_features hd f l = Returned (fs, ls) →
              Forall (has_keys feature_keys) hd).
    { clear. induction hd as [|d rest IH]; intros f l fs ls; simpl; first done.
      destruct (feature_row d) as [row|] eqn:Er; simpl; last done.
      destruct (getitem d "delay") as [y|] eqn:Ey; simpl; last done.
      intros Hrest. constructor.
      - by eapply feature_row_returned_keys.
      - by eapply IH. }
    by eapply Hgen.
  - apply collect_features_raises in Erun as (key & d & -> & ? & ? & ?).
    by exists key, d.
Qed.

(** When every record has the seven keys, [np.array] receives one row of
    six features and one label per record, in the order of the records;
    the rows go through the scaler and the labels are returned as they
    are. *)
Theorem prepare_features_rows
    (np_array : ∀ A : Type, list A → outcome Arr) (StandardScaler : Type)
    (fit_transform : Arr → StandardScaler → outcome Arr * StandardScaler)
    historical_data (scaler : StandardScaler) :
  Forall (has_keys feature_keys) historical_data →
  ∃ features labels,
    collect_features historical_data [] [] = Returned (features, labels)
    ∧ Forall2 feature_row_of historical_data features
    ∧ Forall2 (λ d y, d !! "delay" = Some y) historical_data labels
    ∧ prepare_features np_array StandardScaler fit_transform historical_data scaler
      = match np_array _ features with
        | Raised e => (Raised e, scaler)
        | Returned X =>
            match np_array _ labels with
            | Raised e => (Raised e, scaler)
            | Returned y =>
                match fit_transform X scaler with
                | (Raised e, scaler') => (Raised e, scaler')
                | (Returned X_scaled, scaler') => (Returned (X_scaled, y), scaler')
                end
            end
        end.
Proof.
  intros Hkeys.
  destruct (collect_features_returns historical_data [] [] Hkeys)
    as (features & labels & Hrun & Hf & Hl).
  exists features, labels. simpl in Hrun.
  split; [done | split; [done | split; [done|]]].
  unfold prepare_features. by rewrite Hrun.
Qed.

End ml_facts.

Ltac has_all_keys :=
  unfold has_keys, sequence_keys, feature_keys;
  repeat (constructor; [eexists; vm_compute; reflexivity|]); constructor.

Lemma prepare_sequence_data_short_witness :
  sequence_lists (replicate 24 (∅ : gmap string Z)) = Returned ([], [])
  ∧ prepare_sequence_data length_only (replicate 24 (∅ : gmap string Z))
    = Returned (0%nat, 0%nat).
Proof.
  apply (prepare_sequence_data_short length_only (replicate 24 (∅ : gmap string Z))).
  rewrite length_replicate. unfold sequence_length. lia.
Defined.

Lemma sequence_lists_windows_witness :
  ∃ sequences targets,
    sequence_lists (replicate 26 sample_traffic_record)
    = Returned (sequences, targets)
    ∧ length sequences = 2%nat.
Proof.
  destruct (sequence_lists_windows length_only (replicate 26 sample_traffic_record))
    as (sequences & targets & Hrun & _ & Hlen & _).
  - apply Forall_replicate. has_all_keys.
  - exists sequences, targets. split; first exact Hrun.
    rewrite Hlen, length_replicate. reflexivity.
Defined.

Lemma sequence_lists_raises_witness :
  prepare_sequence_data length_only (replicate 24 sample_traffic_record ++ [∅])
  = Raised (KeyError "congestion_level")
  ∧ ∃ key d, KeyError "congestion_level" = KeyError key ∧ key ∈ sequence_keys
             ∧ d ∈ replicate 24 sample_traffic_record ++ [∅]
             ∧ d !! key = None
             ∧ (sequence_length
                < length (replicate 24 sample_traffic_record ++ [∅]))%nat.
Proof.
  apply (sequence_lists_raises length_only
           (replicate 24 sample_traffic_record ++ [∅])
           (KeyError "congestion_level")).
  vm_compute. reflexivity.
Defined.

Lemma prepare_features_missing_key_witness :
  ∃ key d,
    prepare_features length_only unit (λ X s, (Returned X, s))
      [sample_history_record; delete "delay" sample_history_record] tt
    = (Raised (KeyError key), tt)
    ∧ key ∈ feature_keys
    ∧ d ∈ [sample_history_record; delete "delay" sample_history_record]
    ∧ d !! key = None.
Proof.
  apply (prepare_features_missing_key length_only unit (λ X s, (Returned X, s))
           [sample_history_record; delete "delay" sample_history_record] tt).
  intros Hall. apply Forall_cons in Hall as [_ Hall].
  apply Forall_cons in Hall as [Hk _].
  unfold has_keys, feature_keys in Hk. rewrite Forall_forall in Hk.
  destruct (Hk "delay") as [y Hy]; first repeat constructor.
  vm_compute in Hy. discriminate Hy.
Defined.

Lemma prepare_features_rows_witness :
  ∃ features labels,
    collect_features [sample_history_record; sample_history_record] [] []
    = Returned (features, labels)
    ∧ Forall2 (λ d y, d !! "delay" = Some y)
        [sample_history_record; sample_history_record] labels.
Proof.
  destruct (prepare_features_rows length_only unit (λ X s, (Returned X, s))
              [sample_history_record; sample_history_record] tt)
    as (features & labels & Hrun & _ & Hlabels & _).
  - repeat (constructor; [has_all_keys|]). constructor.
  - by exists features, labels.
Defined.

(** ** src/data/collector.py *)

(** *** Floats *)

(** With a maximum speed of zero [normalize_speeds] raises
    [ZeroDivisionError] as soon as there is a speed to divide, and returns
    the empty list when there is none; with any other maximum it returns one
    quotient per speed, in order. *)
Theorem normalize_speeds_zero_division (speeds : list float) (max_speed : float) :
  (float_is_zero max_speed = true → speeds ≠ [] →
   ∃ msg, DataPreprocessor.normalize_speeds speeds max_speed
          = Raised (ZeroDivisionError msg))
  ∧ (float_is_zero max_speed = false →
     DataPreprocessor.normalize_speeds speeds max_speed
     = Returned (map (λ speed, SFdiv 53 1024 speed max_speed) speeds))
  ∧ DataPreprocessor.normalize_speeds [] max_speed = Returned [].
Proof.
  split; [|split; [|done]].
  - intros Hz Hne. destruct speeds as [|speed rest]; first done.
    simpl. unfold float_div. rewrite Hz. by eexists.
  - intros Hnz. induction speeds as [|speed rest IH]; first done.
    simpl. unfold float_div. rewrite Hnz. simpl. by rewrite IH.
Qed.

Lemma normalize_speeds_zero_division_witness :
  (∃ msg, DataPreprocessor.normalize_speeds [float_of_Z 60; float_of_Z 80]
            (float_of_Z 0)
          = Raised (ZeroDivisionError msg))
  ∧ DataPreprocessor.normalize_speeds [float_of_Z 60; float_of_Z 80] (float_of_Z 160)
    = Returned (map (λ speed, SFdiv 53 1024 speed (float_of_Z 160))
                  [float_of_Z 60; float_of_Z 80]).
Proof.
  split.
  - destruct (normalize_speeds_zero_division [float_of_Z 60; float_of_Z 80]
                (float_of_Z 0)) as [Hzero _].
    apply Hzero; done.
  - destruct (normalize_speeds_zero_division [float_of_Z 60; float_of_Z 80]
                (float_of_Z 160)) as (_ & Hok & _).
    apply Hok. reflexivity.
Defined.

(** Accepted coordinates are finite: a NaN or an infinite latitude or
    longitude is rejected. *)
Theorem validate_coordinates_finite (lat lon : float) :
  DataValidator.validate_coordinates lat lon = true →
  float_is_finite lat = true ∧ float_is_finite lon = true.
Proof.
  unfold DataValidator.validate_coordinates.
  intros [Hlat Hlon]%andb_true_iff. split.
  - destruct lat as [s|[|]| |s m e]; try done.
  - destruct lon as [s|[|]| |s m e]; try done.
Qed.

Lemma validate_coordinates_finite_witness :
  float_is_finite (float_of_Z 28) = true ∧ float_is_finite (float_of_Z 77) = true.
Proof.
  apply (validate_coordinates_finite (float_of_Z 28) (float_of_Z 77)).
  reflexivity.
Defined.

(** An accepted speed is not NaN and not below zero, and the maximum it is
    checked against is not NaN. *)
Theorem validate_speed_sound (speed max_speed : float) :
  DataValidator.validate_speed speed max_speed = true →
  float_is_nan speed = false ∧ float_is_negative speed = false
  ∧ float_is_nan max_speed = false.
Proof.
  unfold DataValidator.validate_speed.
  intros [Hlow Hhigh]%andb_true_iff.
  destruct speed as [s|[|]| |[|] m e]; try done;
    destruct max_speed as [s'|[|]| |s' m' e']; try done.
Qed.

Lemma validate_speed_sound_witness :
  float_is_nan (float_of_Z 100) = false
  ∧ float_is_negative (float_of_Z 100) = false
  ∧ float_is_nan (float_of_Z 160) = false.
Proof.
  apply (validate_speed_sound (float_of_Z 100) (float_of_Z 160)).
  reflexivity.
Defined.

(** *** Times *)

Lemma datetime_le_same (a b : py_datetime) :
  aware a = aware b → datetime_le a b = Returned (instant a <=? instant b).
Proof. intros H. unfold datetime_le. by rewrite bool_decide_eq_true_2. Qed.

Lemma datetime_lt_same (a b : py_datetime) :
  aware a = aware b → datetime_lt a b = Returned (instant a <? instant b).
Proof. intros H. unfold datetime_lt. by rewrite bool_decide_eq_true_2. Qed.

Lemma datetime_le_raises (a b : py_datetime) e :
  datetime_le a b = Raised e → e = cannot_compare ∧ aware a ≠ aware b.
Proof.
  unfold datetime_le. case_bool_decide; first done.
  by intros [= <-].
Qed.

Lemma datetime_lt_raises (a b : py_datetime) e :
  datetime_lt a b = Raised e → e = cannot_compare ∧ aware a ≠ aware b.
Proof.
  unfold datetime_lt. case_bool_decide; first done.
  by intros [= <-].
Qed.

Lemma datetime_le_returns (a b : py_datetime) r :
  datetime_le a b = Returned r →
  aware a = aware b ∧ r = (instant a <=? instant b).
Proof.
  unfold datetime_le. case_bool_decide; last done.
  by intros [= <-].
Qed.






(** *** Comprehensions that may raise *)

Lemma filter_raising_total {A : Type} (test : A → outcome bool) (p : A → bool)
    (l : list A) :
  Forall (λ x, test x = Returned (p x)) l →
  filter_raising test l = Returned (filter (λ x, p x = true) l).
Proof.
  induction 1 as [|x l Hx _ IH]; first done.
  simpl. rewrite Hx, IH. simpl. rewrite filter_cons.
  destruct (p x); [by rewrite decide_True | by rewrite decide_False].
Qed.

Lemma filter_raising_kept {A : Type} (test : A → outcome bool) (l kept : list A) :
  filter_raising test l = Returned kept →
  Forall (λ x, test x = Returned true ∧ x ∈ l) kept
  ∧ (length kept ≤ length l)%nat.
Proof.
  revert kept. induction l as [|x l IH]; intros kept; simpl.
  - intros [= <-]. split; [constructor | done].
  - destruct (test x) as [keep|e] eqn:Ex; simpl; last done.
    destruct (filter_raising test l) as [kept0|e]; simpl; last done.
    destruct (IH kept0 eq_refl) as [Hall Hlen].
    assert (Hall' : Forall (λ y, test y = Returned true ∧ y ∈ x :: l) kept0).
    { eapply Forall_impl; first exact Hall. intros y [? ?]. split; [done | by right]. }
    intros [= <-]. destruct keep.
    + split; [constructor; [split; [done | by left] | done] | simpl; lia].
    + split; [done | simpl; lia].
Qed.

Lemma filter_raising_skip {A : Type} (test : A → outcome bool) (before after : list A) x :
  test x = Returned false →
  filter_raising test (before ++ x :: after) = filter_raising test (before ++ after).
Proof.
  intros Hx. induction before as [|y before IH]; simpl.
  - rewrite Hx. simpl. by destruct (filter_raising test after).
  - by rewrite IH.
Qed.

Lemma filter_raising_raises {A : Type} (test : A → outcome bool) (l : list A) e :
  filter_raising test l = Raised e → ∃ x, x ∈ l ∧ test x = Raised e.
Proof.
  induction l as [|x l IH]; simpl; first done.
  destruct (test x) as [keep|e0] eqn:Ex; simpl.
  - destruct (filter_raising test l) as [kept|e1]; simpl; first done.
    intros [= <-]. destruct (IH eq_refl) as (y & ? & ?). exists y. split; [by right | done].
  - intros [= <-]. exists x. split; [by left | done].
Qed.

Lemma map_raising_constant {A B : Type} (f : A → outcome B) (c : B) (l : list A) :
  Forall (λ x, f x = Returned c) l →
  map_raising f l = Returned (replicate (length l) c).
Proof.
  induction 1 as [|x l Hx _ IH]; first done.
  simpl. by rewrite Hx, IH.
Qed.

(** *** DataPreprocessor.process_maintenance_impacts *)

Lemma is_active_true sid clock block :
  DataPreprocessor.is_active sid (datetime_now clock) block = Returned true →
  MaintenanceBlock.section_id block = sid
  ∧ aware (MaintenanceBlock.start_time block) = false
  ∧ aware (MaintenanceBlock.end_time block) = false
  ∧ instant (MaintenanceBlock.start_time block) ≤ clock
  ∧ clock ≤ instant (MaintenanceBlock.end_time block).
Proof.
  unfold DataPreprocessor.is_active. case_bool_decide as Hs; last done.
  destruct (datetime_le (MaintenanceBlock.start_time block) (datetime_now clock))
    as [started|e] eqn:E1; simpl; last done.
  destruct started; last done.
  intros E2.
  apply datetime_le_returns in E1 as [Ha1 Hv1], E2 as [Ha2 Hv2].
  simpl in *. symmetry in Hv1, Hv2. apply Z.leb_le in Hv1, Hv2. done.
Qed.

Lemma is_active_naive sid clock block :
  (MaintenanceBlock.section_id block = sid →
   aware (MaintenanceBlock.start_time block) = false
   ∧ aware (MaintenanceBlock.end_time block) = false) →
  ∃ b, DataPreprocessor.is_active sid (datetime_now clock) block = Returned b.
Proof.
  intros Hnaive. unfold DataPreprocessor.is_active.
  case_bool_decide as Hs; last (eexists; reflexivity).
  destruct (Hnaive Hs) as [Hstart Hend].
  rewrite (datetime_le_same (MaintenanceBlock.start_time block)) by done.
  cbn [mbind outcome_bind].
  destruct (instant (MaintenanceBlock.start_time block) <=? instant (datetime_now clock));
    last (eexists; reflexivity).
  rewrite datetime_le_same by done. eexists; reflexivity.
Qed.

Lemma is_active_outside sid clock block :
  MaintenanceBlock.section_id block ≠ sid
  ∨ (aware (MaintenanceBlock.start_time block) = false
     ∧ clock < instant (MaintenanceBlock.start_time block))
  ∨ (aware (MaintenanceBlock.start_time block) = false
     ∧ aware (MaintenanceBlock.end_time block) = false
     ∧ (instant (MaintenanceBlock.end_time block) < clock
        ∨ instant (MaintenanceBlock.end_time block)
          < instant (MaintenanceBlock.start_time block))) →
  DataPreprocessor.is_active sid (datetime_now clock) block = Returned false.
Proof.
  intros Hout. unfold DataPreprocessor.is_active.
  case_bool_decide as Hs; last done.
  destruct Hout as [? | [[Hstart Hlt] | (Hstart & Hend & Hlt)]]; first done.
  - rewrite (datetime_le_same (MaintenanceBlock.start_time block)) by done.
    cbn [mbind outcome_bind instant datetime_now].
    by destruct (Z.leb_spec (instant (MaintenanceBlock.start_time block)) clock); [lia|].
  - rewrite (datetime_le_same (MaintenanceBlock.start_time block)) by done.
    cbn [mbind outcome_bind instant datetime_now].
    destruct (Z.leb_spec (instant (MaintenanceBlock.start_time block)) clock); last done.
    rewrite datetime_le_same by done. cbn [instant datetime_now].
    f_equal. apply Z.leb_gt. lia.
Qed.

Lemma affected_seconds_active sid clock block :
  DataPreprocessor.is_active sid (datetime_now clock) block = Returned true →
  DataPreprocessor.affected_seconds (datetime_now clock) block
  = Returned (S754_zero false).
Proof.
  intros (_ & Hstart & Hend & Hle1 & Hle2)%is_active_true.
  unfold DataPreprocessor.affected_seconds, datetime_min, datetime_max.
  rewrite !datetime_lt_same by done. simpl.
  assert (Hlo : instant (if clock <? instant (MaintenanceBlock.end_time block)
                         then datetime_now clock
                         else MaintenanceBlock.end_time block) = clock
                ∧ aware (if clock <? instant (MaintenanceBlock.end_time block)
                         then datetime_now clock
                         else MaintenanceBlock.end_time block) = false).
  { destruct (Z.ltb_spec clock (instant (MaintenanceBlock.end_time block)));
      simpl; split; (done || lia). }
  assert (Hhi : instant (if instant (MaintenanceBlock.start_time block) <? clock
                         then datetime_now clock
                         else MaintenanceBlock.start_time block) = clock
                ∧ aware (if instant (MaintenanceBlock.start_time block) <? clock
                         then datetime_now clock
                         else MaintenanceBlock.start_time block) = false).
  { destruct (Z.ltb_spec (instant (MaintenanceBlock.start_time block)) clock);
      simpl; split; (done || lia). }
  destruct Hlo as [Hlo1 Hlo2], Hhi as [Hhi1 Hhi2].
  unfold datetime_sub. rewrite bool_decide_eq_true_2 by congruence. simpl.
  rewrite Hlo1, Hhi1, Z.sub_diag. reflexivity.
Qed.

Lemma fold_add_zeros k :
  fold_left (SFadd 53 1024) (replicate k (S754_zero false)) (S754_zero false)
  = S754_zero false.
Proof. induction k as [|k IH]; [done | exact IH]. Qed.

Lemma sum_floats_zeros n :
  sum_floats (replicate n (S754_zero false)) = PyInt 0
  ∨ sum_floats (replicate n (S754_zero false)) = PyFloat (S754_zero false).
Proof.
  destruct n as [|n]; first by left.
  right. unfold sum_floats. cbn [replicate]. f_equal.
  apply (fold_add_zeros (S n)).
Qed.

Lemma process_maintenance_impacts_unfold clock blocks sid active :
  filter_raising (DataPreprocessor.is_active sid (datetime_now clock)) blocks
  = Returned active →
  DataPreprocessor.process_maintenance_impacts clock blocks sid
  = Returned {|
      DataPreprocessor.active_blocks := Z.of_nat (length active);
      DataPreprocessor.speed_restrictions :=
        omap MaintenanceBlock.speed_restriction active;
      DataPreprocessor.affected_duration :=
        sum_floats (replicate (length active) (S754_zero false)) |}.
Proof.
  intros Hactive. unfold DataPreprocessor.process_maintenance_impacts.
  rewrite Hactive. cbn [mbind outcome_bind].
  rewrite (map_raising_constant _ (S754_zero false)); first done.
  apply filter_raising_kept in Hactive as [Hall _].
  eapply Forall_impl; first exact Hall.
  intros block [Hact _]. by eapply affected_seconds_active.
Qed.

Lemma length_omap_le {A B : Type} (f : A → option B) (l : list A) :
  (length (omap f l) ≤ length l)%nat.
Proof.
  induction l as [|x l IH]; first done.
  change (omap f (x :: l))
    with (match f x with Some y => y :: omap f l | None => omap f l end).
  destruct (f x); cbn [length]; lia.
Qed.

(** The affected duration that [process_maintenance_impacts] returns is
    always zero (the [int] 0 without an active block, the [float] 0.0 with
    one): a block counts only while the clock is between its start and its
    end, and then both bounds of the difference are the clock.  The
    restrictions are at most as many as the active blocks, which are at most
    as many as the blocks.  It returns when the blocks of the section have
    naive times, and raises nothing but the [TypeError] of comparing the
    naive clock with an aware time. *)
Theorem process_maintenance_impacts_duration (clock : Z)
    (maintenance_blocks : list MaintenanceBlock.t) (section_id : string) :
  (∀ r, DataPreprocessor.process_maintenance_impacts clock maintenance_blocks
          section_id = Returned r →
        (DataPreprocessor.affected_duration r = PyInt 0
         ∨ DataPreprocessor.affected_duration r = PyFloat (S754_zero false))
        ∧ Z.of_nat (length (DataPreprocessor.speed_restrictions r))
          ≤ DataPreprocessor.active_blocks r
        ∧ DataPreprocessor.active_blocks r ≤ Z.of_nat (length maintenance_blocks))
  ∧ (Forall (λ block, MaintenanceBlock.section_id block = section_id →
                      aware (MaintenanceBlock.start_time block) = false
                      ∧ aware (MaintenanceBlock.end_time block) = false)
            maintenance_blocks →
     ∃ r, DataPreprocessor.process_maintenance_impacts clock maintenance_blocks
            section_id = Returned r)
  ∧ (∀ e, DataPreprocessor.process_maintenance_impacts clock maintenance_blocks
            section_id = Raised e →
          e = cannot_compare).
Proof.
  destruct (filter_raising (DataPreprocessor.is_active section_id (datetime_now clock))
              maintenance_blocks) as [active|e0] eqn:Hactive.
  - rewrite (process_maintenance_impacts_unfold _ _ _ _ Hactive).
    split; [|split; [by eexists | done]].
    intros r [= <-]. simpl. split; [apply sum_floats_zeros | split].
    + apply inj_le, length_omap_le.
    + apply inj_le. by apply filter_raising_kept in Hactive as [_ ?].
  - split; [|split].
    + unfold DataPreprocessor.process_maintenance_impacts. by rewrite Hactive.
    + intros Hnaive. exfalso.
      apply filter_raising_raises in Hactive as (block & Hin & Hraise).
      rewrite Forall_forall in Hnaive.
      destruct (is_active_naive section_id clock block (Hnaive block Hin)) as [b Hb].
      congruence.
    + unfold DataPreprocessor.process_maintenance_impacts. rewrite Hactive.
      intros e [= <-].
      apply filter_raising_raises in Hactive as (block & _ & Hraise).
      unfold DataPreprocessor.is_active in Hraise.
      case_bool_decide; last done.
      destruct (datetime_le (MaintenanceBlock.start_time block) (datetime_now clock))
        as [[|]|e1] eqn:E1; cbn [mbind outcome_bind] in Hraise.
      * by apply datetime_le_raises in Hraise as [-> _].
      * done.
      * injection Hraise as <-. by apply datetime_le_raises in E1 as [-> _].
Qed.

Lemma process_maintenance_impacts_duration_witness :
  (∃ r, DataPreprocessor.process_maintenance_impacts clock_now
          [sample_block "SEC001" (naive (clock_now - 60)) (naive (clock_now + 60))
             (Some (float_of_Z 40));
           sample_block "SEC002" (utc (clock_now - 60)) (utc (clock_now + 60)) None]
          "SEC001" = Returned r
        ∧ DataPreprocessor.affected_duration r = PyFloat (S754_zero false))
  ∧ ∃ e, DataPreprocessor.process_maintenance_impacts clock_now
           [sample_block "SEC001" (utc (clock_now - 60)) (utc (clock_now + 60)) None]
           "SEC001" = Raised e
         ∧ e = cannot_compare.
Proof.
  split.
  - destruct (process_maintenance_impacts_duration clock_now
                [sample_block "SEC001" (naive (clock_now - 60)) (naive (clock_now + 60))
                   (Some (float_of_Z 40));
                 sample_block "SEC002" (utc (clock_now - 60)) (utc (clock_now + 60)) None]
                "SEC001") as (Hzero & Hreturns & _).
    destruct Hreturns as [r Hr].
    { repeat constructor; simpl; intros; done. }
    exists r. split; first exact Hr.
    destruct (Hzero r Hr) as [[Hint | Hfloat] _]; last exact Hfloat.
    vm_compute in Hr. injection Hr as <-. discriminate Hint.
  - destruct (process_maintenance_impacts_duration clock_now
                [sample_block "SEC001" (utc (clock_now - 60)) (utc (clock_now + 60)) None]
                "SEC001") as (_ & _ & Hraise).
    eexists. split; first reflexivity.
    apply Hraise. reflexivity.
Defined.

(** A block of another section (whatever its times), a block with a naive
    start that lies after the clock, and a block with naive times whose end
    is before the clock or before its start change nothing in what
    [process_maintenance_impacts] returns or raises. *)
Theorem process_maintenance_impacts_ignores (clock : Z)
    (before after : list MaintenanceBlock.t) (block : MaintenanceBlock.t)
    (section_id : string) :
  MaintenanceBlock.section_id block ≠ section_id
  ∨ (aware (MaintenanceBlock.start_time block) = false
     ∧ clock < instant (MaintenanceBlock.start_time block))
  ∨ (aware (MaintenanceBlock.start_time block) = false
     ∧ aware (MaintenanceBlock.end_time block) = false
     ∧ (instant (MaintenanceBlock.end_time block) < clock
        ∨ instant (MaintenanceBlock.end_time block)
          < instant (MaintenanceBlock.start_time block))) →
  DataPreprocessor.process_maintenance_impacts clock
    (before ++ block :: after) section_id
  = DataPreprocessor.process_maintenance_impacts clock
      (before ++ after) section_id.
Proof.
  intros Hout%(is_active_outside section_id clock).
  unfold DataPreprocessor.process_maintenance_impacts.
  by rewrite (filter_raising_skip _ before after block Hout).
Qed.

Lemma process_maintenance_impacts_ignores_witness :
  DataPreprocessor.process_maintenance_impacts clock_now
    ([sample_block "SEC001" (naive (clock_now - 60)) (naive (clock_now + 60))
        (Some (float_of_Z 40))]
     ++ sample_block "SEC002" (utc (clock_now - 60)) (utc (clock_now + 60)) None
     :: [])
    "SEC001"
  = DataPreprocessor.process_maintenance_impacts clock_now
      ([sample_block "SEC001" (naive (clock_now - 60)) (naive (clock_now + 60))
          (Some (float_of_Z 40))] ++ [])
      "SEC001".
Proof.
  apply (process_maintenance_impacts_ignores clock_now
           [sample_block "SEC001" (naive (clock_now - 60)) (naive (clock_now + 60))
              (Some (float_of_Z 40))] []
           (sample_block "SEC002" (utc (clock_now - 60)) (utc (clock_now + 60)) None)
           "SEC001").
  left. discriminate.
Defined.

(** Of blocks that [validate_maintenance_block] accepts, every speed
    restriction in what [process_maintenance_impacts] returns is above
    zero; and it returns when the blocks of the section have naive
    times. *)
Theorem process_maintenance_impacts_restrictions (clock : Z)
    (maintenance_blocks : list MaintenanceBlock.t) (section_id : string) :
  Forall (λ block, DataValidator.validate_maintenance_block block = Returned true)
         maintenance_blocks →
  (∀ r, DataPreprocessor.process_maintenance_impacts clock maintenance_blocks
          section_id = Returned r →
        Forall (λ x, SFltb (float_of_Z 0) x = true)
               (DataPreprocessor.speed_restrictions r))
  ∧ (Forall (λ block, MaintenanceBlock.section_id block = section_id →
                      aware (MaintenanceBlock.start_time block) = false)
            maintenance_blocks →
     ∃ r, DataPreprocessor.process_maintenance_impacts clock maintenance_blocks
            section_id = Returned r).
Proof.
  intros Hvalid. split.
  - intros r Hr.
    destruct (filter_raising (DataPreprocessor.is_active section_id (datetime_now clock))
                maintenance_blocks) as [active|e0] eqn:Hactive.
    + rewrite (process_maintenance_impacts_unfold _ _ _ _ Hactive) in Hr.
      injection Hr as <-. simpl.
      apply filter_raising_kept in Hactive as [Hall _].
      apply Forall_forall. intros x Hx.
      apply list_elem_of_omap in Hx as (block & Hin & Hres).
      rewrite Forall_forall in Hall, Hvalid.
      destruct (Hall block Hin) as [_ Hblock]. specialize (Hvalid block Hblock).
      unfold DataValidator.validate_maintenance_block in Hvalid.
      destruct (datetime_lt _ _) as [ordered|]; last done.
      cbn [mbind outcome_bind] in Hvalid. injection Hvalid as Hvalid.
      apply andb_true_iff in Hvalid as [_ Hpos]. by rewrite Hres in Hpos.
    + unfold DataPreprocessor.process_maintenance_impacts in Hr.
      by rewrite Hactive in Hr.
  - intros Hnaive.
    destruct (process_maintenance_impacts_duration clock maintenance_blocks section_id)
      as (_ & Hreturns & _).
    apply Hreturns. apply Forall_forall. intros block Hin Hsid.
    rewrite Forall_forall in Hnaive, Hvalid.
    specialize (Hnaive block Hin Hsid). specialize (Hvalid block Hin).
    split; first done.
    unfold DataValidator.validate_maintenance_block in Hvalid.
    destruct (datetime_lt _ _) as [ordered|e] eqn:Elt; last done.
    unfold datetime_lt in Elt. case_bool_decide; [congruence | done].
Qed.

Lemma process_maintenance_impacts_restrictions_witness :
  ∃ r, DataPreprocessor.process_maintenance_impacts clock_now
         [sample_block "SEC001" (naive (clock_now - 60)) (naive (clock_now + 60))
            (Some (float_of_Z 40));
          sample_block "SEC001" (naive (clock_now - 60)) (naive (clock_now + 60)) None]
         "SEC001" = Returned r
       ∧ Forall (λ x, SFltb (float_of_Z 0) x = true)
                (DataPreprocessor.speed_restrictions r).
Proof.
  destruct (process_maintenance_impacts_restrictions clock_now
              [sample_block "SEC001" (naive (clock_now - 60)) (naive (clock_now + 60))
                 (Some (float_of_Z 40));
               sample_block "SEC001" (naive (clock_now - 60)) (naive (clock_now + 60)) None]
              "SEC001") as [Hpos Hreturns].
  - repeat (constructor; [reflexivity|]). constructor.
  - destruct Hreturns as [r Hr].
    { repeat (constructor; [intros _; reflexivity|]). constructor. }
    exists r. split; [exact Hr | by apply Hpos].
Defined.

(** *** DataAggregator *)

Lemma size_list_to_set_le (l : list string) :
  (size (list_to_set l : gset string) ≤ length l)%nat.
Proof.
  induction l as [|x l IH]; cbn [length list_to_set foldr].
  - apply Nat.eq_le_incl, (size_empty (C:=gset string)).
  - rewrite size_union_alt, size_singleton.
    assert (Hsub : list_to_set l ∖ {[x]} ⊆ (list_to_set l : gset string))
      by (by apply subseteq_difference_l).
    apply subseteq_size in Hsub. lia.
Qed.

Lemma size_list_to_set_pos (x : string) (l : list string) :
  (1 ≤ size (list_to_set (x :: l) : gset string))%nat.
Proof. cbn [list_to_set foldr]. rewrite size_union_alt, size_singleton. lia. Qed.

Lemma datetime_minus_in_range a delta :
  0 ≤ instant a - delta ≤ max_instant →
  datetime_minus a delta
  = Returned {| instant := instant a - delta; aware := aware a |}.
Proof.
  intros [Hlow Hhigh]. unfold datetime_minus.
  apply Z.leb_le in Hlow, Hhigh. by rewrite Hlow, Hhigh.
Qed.

Lemma datetime_minus_out_of_range a delta :
  ¬ (0 ≤ instant a - delta ≤ max_instant) →
  datetime_minus a delta = Raised date_out_of_range.
Proof.
  intros Hout. unfold datetime_minus.
  destruct (Z.leb_spec 0 (instant a - delta)); last done.
  destruct (Z.leb_spec (instant a - delta) max_instant); [lia | done].
Qed.

(** [aggregate_section_metrics] raises [OverflowError] when the start of
    the window is not a date.  When it is one and the reports of the section
    have naive timestamps, it returns: [None] exactly when no report of the
    section is in the window; otherwise the number of trains is at least 1
    and at most the number of matching reports, the total delay is their sum
    and the conflict count is 0, and the division is never by zero.  The
    only other thing it raises is the [TypeError] of comparing an aware
    timestamp of a report of the section with the naive start of the
    window. *)
Theorem aggregate_section_metrics_result (np_mean : list float → float)
    (clock : Z) (real_time_data : list RealTimeData.t)
    (section_id : string) (time_window : Z) :
  let section_data :=
    filter (λ data, in_section_window section_id (clock - time_window) data = true)
           real_time_data in
  (¬ (0 ≤ clock - time_window ≤ max_instant) →
   DataAggregator.aggregate_section_metrics np_mean clock real_time_data
     section_id time_window = Raised date_out_of_range)
  ∧ (0 ≤ clock - time_window ≤ max_instant →
     Forall (λ data, RealTimeData.section_id data = section_id →
                     aware (RealTimeData.timestamp data) = false)
            real_time_data →
     ∃ r, DataAggregator.aggregate_section_metrics np_mean clock
            real_time_data section_id time_window = Returned r
          ∧ (r = None ↔ section_data = [])
          ∧ ∀ m, r = Some m →
              1 ≤ OperationalMetrics.trains_in_section m
              ∧ OperationalMetrics.trains_in_section m
                ≤ Z.of_nat (length section_data)
              ∧ Z.of_nat (length section_data)
                ≤ Z.of_nat (length real_time_data)
              ∧ OperationalMetrics.total_delay m
                = fold_left Z.add (map RealTimeData.delay section_data) 0
              ∧ OperationalMetrics.conflict_count m = 0
              ∧ OperationalMetrics.timestamp m = datetime_now clock
              ∧ OperationalMetrics.section_id m = section_id)
  ∧ (∀ e, DataAggregator.aggregate_section_metrics np_mean clock
            real_time_data section_id time_window = Raised e →
          e = date_out_of_range ∧ ¬ (0 ≤ clock - time_window ≤ max_instant)
          ∨ e = cannot_compare
            ∧ ∃ data, data ∈ real_time_data
                      ∧ RealTimeData.section_id data = section_id
                      ∧ aware (RealTimeData.timestamp data) = true).
Proof.
  intros section_data. split; [|split].
  - intros Hout. unfold DataAggregator.aggregate_section_metrics.
    by rewrite (datetime_minus_out_of_range (datetime_now clock) time_window Hout).
  - intros Hin Hnaive. unfold DataAggregator.aggregate_section_metrics.
    rewrite (datetime_minus_in_range (datetime_now clock) time_window Hin).
    cbn [mbind outcome_bind].
    rewrite (filter_raising_total _
               (in_section_window section_id (clock - time_window))).
    2:{ eapply Forall_impl; first exact Hnaive.
        intros data Hdata. unfold DataAggregator.in_window, in_section_window.
        case_bool_decide as Hsid; last done.
        unfold datetime_le. simpl. rewrite (Hdata Hsid). by rewrite bool_decide_true. }
    cbn [mbind outcome_bind]. fold section_data.
    pose proof (length_filter
                  (λ data, in_section_window section_id (clock - time_window) data = true)
                  real_time_data) as Hlen.
    fold section_data in Hlen.
    destruct section_data as [|data rest] eqn:Hsd.
    + exists None. split; [done | split; [done | by intros m [=]]].
    + unfold int_truediv.
      destruct (Z.eqb_spec (Z.of_nat (length real_time_data)) 0) as [Hz|Hnz].
      { simpl in Hlen. lia. }
      cbn [mbind outcome_bind]. eexists. split; first done. split; first done.
      intros m [= <-]. simpl.
      pose proof (size_list_to_set_le
                    (RealTimeData.train_id data :: map RealTimeData.train_id rest)) as Hle.
      pose proof (size_list_to_set_pos (RealTimeData.train_id data)
                    (map RealTimeData.train_id rest)) as Hpos.
      simpl in Hle, Hpos, Hlen. rewrite length_map in Hle.
      repeat split; lia.
  - intros e. unfold DataAggregator.aggregate_section_metrics.
    destruct (datetime_minus (datetime_now clock) time_window)
      as [window_start|e0] eqn:Hminus.
    + cbn [mbind outcome_bind].
      destruct (filter_raising (DataAggregator.in_window section_id window_start)
                  real_time_data) as [kept|e1] eqn:Hkept.
      * cbn [mbind outcome_bind]. destruct kept as [|data rest]; first done.
        unfold int_truediv.
        destruct (Z.eqb_spec (Z.of_nat (length real_time_data)) 0) as [Hz|Hnz];
          last done.
        apply filter_raising_kept in Hkept as [_ Hlen]. simpl in Hlen. lia.
      * cbn [mbind outcome_bind]. intros [= <-]. right.
        apply filter_raising_raises in Hkept as (data & Hin & Hraise).
        unfold DataAggregator.in_window in Hraise.
        case_bool_decide as Hsid; last done.
        apply datetime_le_raises in Hraise as [-> Hmix].
        split; first done. exists data. split; [done | split; [done|]].
        unfold datetime_minus in Hminus.
        destruct (_ && _); last done. injection Hminus as <-.
        simpl in Hmix. by destruct (aware (RealTimeData.timestamp data)).
    + cbn [mbind outcome_bind]. intros [= <-]. left.
      unfold datetime_minus in Hminus.
      destruct (Z.leb_spec 0 (instant (datetime_now clock) - time_window));
        destruct (Z.leb_spec (instant (datetime_now clock) - time_window) max_instant);
        simpl in *; try done; injection Hminus as <-; split; try done; lia.
Qed.

Lemma aggregate_section_metrics_result_witness :
  let reports := [sample_report "T1" "SEC001" (naive clock_now) 30;
                  sample_report "T1" "SEC001" (naive (clock_now - 10)) 60;
                  sample_report "T2" "SEC002" (utc clock_now) 0;
                  sample_report "T3" "SEC001" (naive (clock_now - 7200000000)) 500] in
  (∃ m, DataAggregator.aggregate_section_metrics (λ _, float_of_Z 60) clock_now
          reports "SEC001" 3600000000 = Returned (Some m)
        ∧ 1 ≤ OperationalMetrics.trains_in_section m
        ∧ OperationalMetrics.trains_in_section m ≤ 2
        ∧ OperationalMetrics.total_delay m = 90)
  ∧ DataAggregator.aggregate_section_metrics (λ _, float_of_Z 60) clock_now
      reports "SEC001" (clock_now + 1) = Raised date_out_of_range.
Proof.
  intros reports. split.
  - destruct (aggregate_section_metrics_result (λ _, float_of_Z 60) clock_now
                reports "SEC001" 3600000000) as (_ & Hreturns & _).
    destruct Hreturns as (r & Hrun & _ & Hsome).
    { vm_compute. split; discriminate. }
    { repeat constructor; simpl; intros; done. }
    destruct r as [m|].
    + exists m. split; first exact Hrun.
      destruct (Hsome m eq_refl) as (Hlow & Hhigh & _ & Hdelay & _).
      split; [exact Hlow | split; [exact Hhigh | exact Hdelay]].
    + vm_compute in Hrun. discriminate Hrun.
  - apply (aggregate_section_metrics_result (λ _, float_of_Z 60) clock_now
             reports "SEC001" (clock_now + 1)).
    vm_compute. intros [Hlow _]. by apply Hlow.
Defined.
